(** * covidbot: message dispatch with backoff, and mention resolution

    A shallow embedding of two files of the covidbot repository:

    - [covidbot/signal_interface.py]: [SignalInterface.backoff_timer],
      [send_daily_reports], [send_message] and [restart_service];
    - [covidbot/single_command_interface.py]: the body of
      [SingleCommandInterface.run], which tokenizes a mention, discards
      chatty messages, searches the district index over shrinking windows
      of tokens and falls back to the location service.

    Python code with side effects is written in a small monad that threads
    a state, records every call to a collaborator as an event, and can
    raise.  Numbers: the backoff delay is a Python [float] or [int]; both
    are embedded in [Q], so [0.7 * d] is the exact rational product and
    the rounding of binary floating point is not part of the model.
    Strings: a Python [str] is a [string] whose characters are code points
    below 256.

    Further modules embed the daily tweets of [SingleCommandInterface]
    and [message_handler] with [send_reply] of [SignalInterface]; the
    later sections prove what tokens, the loop over mentions, the
    batches and these functions do beyond the first properties. *)

From Stdlib Require Import ZArith QArith Qround Lqa List String Ascii Bool Lia.
Import ListNotations.

Set Implicit Arguments.

(** ** Python effects: state, event log, exceptions *)

Module Py.

Inductive exn : Set :=
| IndexError   (* list index out of range *)
| ValueError.  (* time.sleep on a negative length *)

Inductive result (A : Type) : Type :=
| Ok (a : A)
| Raise (e : exn).
Arguments Ok {A} a.
Arguments Raise {A} e.

Section Monad.
Context {St Ev : Type}.

(** A computation reads the state and gives a result or an exception,
    the new state and the events it emitted, oldest first. *)
Definition M (A : Type) : Type := St -> result A * St * list Ev.

Definition ret {A} (a : A) : M A := fun s => (Ok a, s, []).

Definition raise {A} (e : exn) : M A := fun s => (Raise e, s, []).

Definition bind {A B} (c : M A) (k : A -> M B) : M B := fun s =>
  match c s with
  | (Ok a, s1, t1) =>
      match k a s1 with
      | (r, s2, t2) => (r, s2, t1 ++ t2)
      end
  | (Raise e, s1, t1) => (Raise e, s1, t1)
  end.

Definition emit (e : Ev) : M unit := fun s => (Ok tt, s, [e]).

Definition get : M St := fun s => (Ok s, s, []).

Definition put (s : St) : M unit := fun _ => (Ok tt, s, []).

(** [for x in xs: acc = body(acc, x)]; an exception leaves the loop. *)
Fixpoint for_fold {A Acc} (body : Acc -> A -> M Acc) (acc : Acc)
         (xs : list A) : M Acc :=
  match xs with
  | [] => ret acc
  | x :: xs' => bind (body acc x) (fun acc' => for_fold body acc' xs')
  end.

Definition outcome {A} (r : result A * St * list Ev) : result A :=
  fst (fst r).
Definition final {A} (r : result A * St * list Ev) : St := snd (fst r).
Definition events {A} (r : result A * St * list Ev) : list Ev := snd r.
End Monad.

Arguments M : clear implicits.

Module Notations.
Notation "x <- c ;; k" := (bind c (fun x => k))
  (at level 61, c at next level, right associativity).
Notation "c ;; k" := (bind c (fun _ => k))
  (at level 61, right associativity).
End Notations.

End Py.

(** ** covidbot/signal_interface.py *)

Module SignalInterface.
Import Py Py.Notations.
Local Open Scope Q_scope.

Inductive level : Set := INFO | WARNING | ERROR.

(** What a log line says; the f-string around it is not modelled. *)
Inductive logline : Type :=
| ToSend (n : nat)                             (* "{n} to send!" *)
| TryToSendReport (message_counter : nat)
| SentDailyReport (message_counter total : nat) (userid : string)
| ErrorSendingDailyReport (message_counter total : nat) (userid : string)
| SentMessageTo (user_id : string)
| ErrorSendingMessageTo (user_id : string)
| Sleeping (new_backoff : Q)
| TryToRestart
| ExitedWith (returncode : Z)
| RestartedService.

(** An attachment dict is identified by the [district_id] of its file
    name, [tmp/graphic{district_id}.jpg], an integer. *)
Inductive event : Type :=
| Log (lv : level) (line : logline)
| Print (returncode : Z)
| WriteGraphic (district_id : Z)       (* get_attachment_path: open/write *)
| BotSendMessage (receiver body : string) (attachments : list Z)
| ConfirmDailyReportSend (userid : string)
| DisableUser (user_id : string)
| Sleep (secs : Q)                     (* time.sleep *)
| Supervisorctl.          (* supervisorctl restart signald signalbot *)

(** covidbot.text_interface.BotResponse, as far as this file reads it. *)
Record BotResponse : Type := {
  message : string;
  image : option Z
}.

(** The collaborators of [SignalInterface].  [send] is
    [semaphore.Bot.send_message], a state machine of its own that answers
    success or failure; [adapt_text] is covidbot.utils.adapt_text;
    [reportHandler] is inherited from SimpleTextInterface. *)
Class Backend (S : Type) : Type := {
  send : S -> string -> string -> list Z -> bool * S;
  adapt_text : string -> string;
  reportHandler : string -> string -> BotResponse
}.

Section Code.
Context {S : Type} `{Backend S}.

Definition M : Type -> Type := Py.M S event.

Definition bot_send_message (receiver body : string)
           (attachments : list Z) : M bool := fun s =>
  let (success, s') := send s receiver body attachments in
  (Ok success, s', [BotSendMessage receiver body attachments]).

(** [time.sleep(secs)]: ValueError on a negative length. *)
Definition sleep (secs : Q) : M unit :=
  if Qle_bool 0 secs then emit (Sleep secs) else raise ValueError.

(** [math.ceil]. *)
Definition ceil (x : Q) : Z := Qceiling x.

(** [x > y] on numbers. *)
Definition gt (x y : Q) : bool := negb (Qle_bool x y).

Definition get_attachment_path (district_id : Z) : M Z :=
  emit (WriteGraphic district_id) ;;
  ret district_id.

(** [backoff_timer(current_backoff, failed, user_id)].  In the failure
    branch [^] is Python's bitwise exclusive or on integers. *)
Definition backoff_timer (current_backoff : Q) (failed : bool)
           (user_id : string) : M Q :=
  new_backoff <-
    (if negb failed then
       emit (Log INFO (SentMessageTo user_id)) ;;
       if gt current_backoff 1
       then ret ((7 # 10) * current_backoff)
       else ret current_backoff
     else
       emit (Log ERROR (ErrorSendingMessageTo user_id)) ;;
       emit (DisableUser user_id) ;;
       ret (inject_Z (Z.lxor 2 (ceil current_backoff)))) ;;
  emit (Log INFO (Sleeping new_backoff)) ;;
  sleep new_backoff ;;
  ret new_backoff.

(** [restart_service()]; [returncode] is the exit status of the
    supervisorctl process. *)
Definition restart_service (returncode : Z) : M unit :=
  emit (Log WARNING TryToRestart) ;;
  emit Supervisorctl ;;
  if negb (returncode =? 0)%Z then
    emit (Print returncode) ;;
    emit (Log ERROR (ExitedWith returncode))
  else
    emit (Log WARNING RestartedService).

(** The body of the [for userid, message in unconfirmed_reports] loop
    of [send_daily_reports]; the loop carries [backoff_time] and
    [message_counter]. *)
Definition daily_report_body (total : nat) (country_graph : Z)
           (acc : Q * nat) (report : string * string) : M (Q * nat) :=
  let '(backoff_time, message_counter) := acc in
  let '(userid, message) := report in
  emit (Log INFO (TryToSendReport message_counter)) ;;
  success <- bot_send_message userid (adapt_text message) [country_graph] ;;
  (if success : bool then
     emit (ConfirmDailyReportSend userid) ;;
     emit (Log WARNING (SentDailyReport message_counter total userid))
   else
     emit (Log ERROR (ErrorSendingDailyReport message_counter total userid))) ;;
  backoff_time' <- backoff_timer backoff_time (negb success) userid ;;
  ret (backoff_time', Datatypes.S message_counter).

(** [send_daily_reports()].  [unconfirmed_reports] is what
    [bot.get_unconfirmed_daily_reports()] returned, [uniform] the draw
    of [random.uniform(0.5, 2)], [returncode] the exit status seen by
    [restart_service]. *)
Definition send_daily_reports (unconfirmed_reports : list (string * string))
           (uniform : Q) (returncode : Z) : M unit :=
  match unconfirmed_reports with
  | [] => ret tt
  | _ :: _ =>
      emit (Log WARNING (ToSend (List.length unconfirmed_reports))) ;;
      country_graph <- get_attachment_path 0 ;;
      for_fold (daily_report_body (List.length unconfirmed_reports)
                                  country_graph)
               (uniform, 0%nat) unconfirmed_reports ;;
      restart_service returncode
  end.

(** The body of the [for user in users] loop of [send_message]. *)
Definition message_body (message : string) (append_report : bool)
           (backoff_time : Q) (user : string) : M Q :=
  success <- bot_send_message user (adapt_text message) [] ;;
  backoff_time <- backoff_timer backoff_time (negb success) user ;;
  if append_report then
    let response := reportHandler EmptyString user in
    attachments <-
      match image response with
      | Some _ => a <- get_attachment_path 99 ;; ret [a]
      | None => ret []
      end ;;
    success <- bot_send_message
                 user (adapt_text (SignalInterface.message response))
                 attachments ;;
    backoff_timer backoff_time (negb success) user
  else ret backoff_time.

(** [send_message(message, users, append_report)].  [all_users] are
    the platform ids of [bot.get_all_user()], read when [users] is
    empty or None. *)
Definition send_message (message : string) (users : list string)
           (append_report : bool) (all_users : list string)
           (uniform : Q) (returncode : Z) : M unit :=
  let users := match users with [] => all_users | _ :: _ => users end in
  for_fold (message_body message append_report) uniform users ;;
  restart_service returncode.
End Code.

(** *** What a trace of a batch shows *)

(** The calls a batch makes for its items: the send and what is
    recorded about the recipient. *)
Definition is_core (e : event) : bool :=
  match e with
  | BotSendMessage _ _ _ | ConfirmDailyReportSend _ | DisableUser _ => true
  | _ => false
  end.

(** The recipient and body of the send attempts, oldest first. *)
Fixpoint attempts (tr : list event) : list (string * string) :=
  match tr with
  | [] => []
  | BotSendMessage receiver body _ :: tr' => (receiver, body) :: attempts tr'
  | _ :: tr' => attempts tr'
  end.

(** The terminal transitions of items: delivery confirmed, or recipient
    disabled. *)
Definition is_terminal (e : event) : bool :=
  match e with
  | ConfirmDailyReportSend _ | DisableUser _ => true
  | _ => false
  end.

(** The number [backoff_timer] computes before it sleeps. *)
Definition new_backoff_value (current_backoff : Q) (failed : bool) : Q :=
  if failed then inject_Z (Z.lxor 2 (ceil current_backoff))
  else if gt current_backoff 1 then (7 # 10) * current_backoff
       else current_backoff.

Section Sink.
Context {S : Type} `{Backend S}.

(** The answers of the sink to the reports of a batch, sent in order
    with attachment [g] from sink state [s]. *)
Fixpoint outcomes (g : Z) (s : S)
         (reports : list (string * string)) : list bool :=
  match reports with
  | [] => []
  | (userid, message) :: rest =>
      let (success, s') := send s userid (adapt_text message) [g] in
      success :: outcomes g s' rest
  end.

(** The sink state after those sends. *)
Fixpoint sink_after (g : Z) (s : S)
         (reports : list (string * string)) : S :=
  match reports with
  | [] => s
  | (userid, message) :: rest =>
      sink_after g (snd (send s userid (adapt_text message) [g])) rest
  end.

(** One send and one terminal transition per report, in order. *)
Fixpoint blocks (g : Z) (s : S)
         (reports : list (string * string)) : list event :=
  match reports with
  | [] => []
  | (userid, message) :: rest =>
      let (success, s') := send s userid (adapt_text message) [g] in
      BotSendMessage userid (adapt_text message) [g]
      :: (if success then ConfirmDailyReportSend userid
          else DisableUser userid)
      :: blocks g s' rest
  end.
End Sink.

(** A sink that answers from a script of outcomes and succeeds once the
    script is used up; texts are sent as they are. *)
#[export] Instance scripted_backend : Backend (list bool) := {|
  send := fun s _ _ _ =>
    match s with
    | [] => (true, [])
    | success :: s' => (success, s')
    end;
  adapt_text := fun text => text;
  reportHandler := fun _ _ => {| message := "report"; image := None |}
|}.

(** *** More observations on a batch *)

Definition is_sleep (e : event) : bool :=
  match e with
  | Sleep _ => true
  | _ => false
  end.

Definition is_confirm (e : event) : bool :=
  match e with
  | ConfirmDailyReportSend _ => true
  | _ => false
  end.

(** Every sleep of the trace lasts between [lo] and [hi] seconds. *)
Definition sleeps_within (lo hi : Q) (tr : list event) : Prop :=
  Forall (fun e => match e with
                   | Sleep secs => lo <= secs <= hi
                   | _ => True
                   end) tr.

(** The sends and the sleeps of a trace in their order: [true] for a
    send, [false] for a sleep. *)
Fixpoint pacing (tr : list event) : list bool :=
  match tr with
  | [] => []
  | BotSendMessage _ _ _ :: tr' => true :: pacing tr'
  | Sleep _ :: tr' => false :: pacing tr'
  | _ :: tr' => pacing tr'
  end.

(** [n] times a send and then a sleep. *)
Fixpoint send_then_sleep (n : nat) : list bool :=
  match n with
  | O => []
  | Datatypes.S k => true :: false :: send_then_sleep k
  end.

End SignalInterface.

(** ** covidbot/single_command_interface.py *)

Module SingleCommandInterface.
Import Py Py.Notations.
Local Open Scope string_scope.

(** *** The string methods used by [run] *)

(** [c.isspace()] for a code point below 256: tab to carriage return,
    the four separators 28 to 31, the space, NEL and the no-break
    space. *)
Definition isspace (c : ascii) : bool :=
  let n := nat_of_ascii c in
  (((9 <=? n) && (n <=? 13)) || ((28 <=? n) && (n <=? 32))
   || (n =? 133) || (n =? 160))%nat.

(** [s.replace(old, '')] for a one-character [old]. *)
Fixpoint replace (old : ascii) (s : string) : string :=
  match s with
  | EmptyString => EmptyString
  | String c s' =>
      if Ascii.eqb c old then replace old s' else String c (replace old s')
  end.

Fixpoint lstrip (s : string) : string :=
  match s with
  | EmptyString => EmptyString
  | String c s' => if isspace c then lstrip s' else s
  end.

Fixpoint rstrip (s : string) : string :=
  match s with
  | EmptyString => EmptyString
  | String c s' =>
      match rstrip s' with
      | EmptyString => if isspace c then EmptyString else String c EmptyString
      | r => String c r
      end
  end.

(** [s.strip()] *)
Definition strip (s : string) : string := rstrip (lstrip s).

(** [s.split()]: the maximal runs of characters that are not
    whitespace. *)
Fixpoint split (s : string) : list string :=
  match s with
  | EmptyString => []
  | String c s' =>
      if isspace c then split s'
      else
        match s' with
        | EmptyString => [String c EmptyString]
        | String c' _ =>
            if isspace c' then String c EmptyString :: split s'
            else
              match split s' with
              | t :: ts => String c t :: ts
              | [] => [String c EmptyString]
              end
        end
  end.

(** [sep.join(xs)] *)
Fixpoint join (sep : string) (xs : list string) : string :=
  match xs with
  | [] => EmptyString
  | [x] => x
  | x :: xs' => x ++ sep ++ join sep xs'
  end.

(** [message.replace(',', '').replace('.', '').replace('!', '')
    .replace('?', '').strip().split()] *)
Definition tokenize (message : string) : list string :=
  split (strip (replace "?" (replace "!" (replace "." (replace "," message))))).

(** *** Collaborators and events *)

(** covidbot.text_interface.BotResponse, as [run] reads it. *)
Record BotResponse : Type := {
  message : string;
  images : list Z
}.

(** [search_district_by_name] is CovidData's name index,
    [find_location text restrict] is
    [LocationService.find_location(text)] when [restrict] is false and
    [find_location(text, restrict_type=True)] when it is true;
    [get_infection_tweet] stands for the method of that name, which
    formats the figures of a district. *)
Class Services : Type := {
  search_district_by_name : string -> list (Z * string);
  find_location : string -> bool -> list Z;
  get_infection_tweet : Z -> BotResponse
}.

Inductive event : Type :=
| RecvMessageCountInc
| DiscardedMessageCountInc
| LogWarning (arguments : list string)
| SearchDistrictByName (argument : string)
| FindLocation (text : string) (restrict_type : bool)
| PrintArguments (arguments : list string)
| PrintReply (chat_id : Z) (message : string)
| WriteMessage (message : string) (media_files : list Z) (reply_id : Z)
| SetMessageAnswered (chat_id : Z)
| Sleep (sleep_sec : Z).

(** The state is the user manager's set of answered chat ids. *)
Definition M : Type -> Type := Py.M (list Z) event.

Definition is_message_answered (chat_id : Z) : M bool :=
  answered <- get ;;
  ret (existsb (Z.eqb chat_id) answered).

Definition set_message_answered (chat_id : Z) : M unit :=
  answered <- get ;;
  put (chat_id :: answered) ;;
  emit (SetMessageAnswered chat_id).

(** [time.sleep(secs)]: ValueError on a negative length. *)
Definition sleep (secs : Z) : M unit :=
  if (0 <=? secs)%Z then emit (Sleep secs) else raise ValueError.

(** [xs[i]] *)
Definition getitem {A} (xs : list A) (i : nat) : M A :=
  match nth_error xs i with
  | Some x => ret x
  | None => raise IndexError
  end.

(** Python's truth value of [district_id], which is None or an int. *)
Definition truthy (district_id : option Z) : bool :=
  match district_id with
  | Some z => negb (z =? 0)%Z
  | None => false
  end.

Section Code.
Context `{Services}.

Definition data_search_district_by_name (argument : string)
  : M (list (Z * string)) :=
  emit (SearchDistrictByName argument) ;;
  ret (search_district_by_name argument).

Definition location_service_find_location (text : string)
           (restrict_type : bool) : M (list Z) :=
  emit (FindLocation text restrict_type) ;;
  ret (find_location text restrict_type).

(** [for i in range(n, 0, -1)] of lines 150 to 156, from window size
    [i] down; the result is [district_id] when the loop is left. *)
Fixpoint search_windows (arguments : list string) (i : nat)
  : M (option Z) :=
  match i with
  | O => ret None
  | Datatypes.S j =>
      let argument := strip (join " " (firstn i arguments)) in
      districts_query <- data_search_district_by_name argument ;;
      match districts_query with
      | [] => search_windows arguments j
      | first :: _ =>
          if (List.length districts_query <=? 2)%nat
          then ret (Some (fst first))
          else search_windows arguments j
      end
  end.

(** Lines 158 to 166, "Check OSM if nothing was found". *)
Definition check_osm (arguments : list string) (district_id : option Z)
  : M (option Z) :=
  if negb (truthy district_id) then
    results <- location_service_find_location (join " " arguments) false ;;
    match results with
    | [] => ret district_id
    | [r] => ret (Some r)
    | _ :: _ :: _ =>
        results <- location_service_find_location (join " " arguments) true ;;
        match results with
        | [r] => ret (Some r)
        | _ => ret district_id
        end
    end
  else ret district_id.

(** Lines 150 to 166: what [district_id] is before "Answer Tweet". *)
Definition resolve (arguments : list string) : M (option Z) :=
  district_id <- search_windows arguments (Nat.min (List.length arguments) 3) ;;
  check_osm arguments district_id.

(** Lines 168 to 178, "Answer Tweet".  An f-string prints None as the
    word None. *)
Definition answer_tweet (no_write : bool) (chat_id : Z)
           (arguments : list string) (username : option string)
           (district_id : option Z) : M unit :=
  match district_id with
  | Some id =>
      if truthy district_id then
        let username :=
          match username with
          | Some EmptyString => EmptyString
          | Some u => u ++ " "
          | None => "None"
          end in
        let response := get_infection_tweet id in
        let message := username ++ response.(message) in
        if no_write then
          emit (PrintArguments arguments) ;;
          emit (PrintReply chat_id message)
        else
          emit (WriteMessage message response.(images) chat_id)
      else ret tt
  | None => ret tt
  end.

(** The body of [for chat_id, message, username in self.get_mentions()]. *)
Definition mention_body (no_write : bool)
           (mention : Z * string * option string) : M unit :=
  let '(chat_id, message, username) := mention in
  answered <- is_message_answered chat_id ;;
  if answered : bool then ret tt
  else
    emit RecvMessageCountInc ;;
    let arguments := tokenize message in
    first <- getitem arguments 0 ;;
    if (String.length first <? 4)%nat && (3 <? List.length arguments)%nat
    then
      emit (LogWarning arguments) ;;
      set_message_answered chat_id ;;
      emit DiscardedMessageCountInc
    else
      district_id <- resolve arguments ;;
      answer_tweet no_write chat_id arguments username district_id ;;
      set_message_answered chat_id.

(** One turn of [while running]: the mentions that [get_mentions()]
    yields, then [time.sleep(self.sleep_sec)]. *)
Definition run_once (no_write : bool) (sleep_sec : Z)
           (mentions : list (Z * string * option string)) : M unit :=
  for_fold (fun _ mention => mention_body no_write mention) tt mentions ;;
  sleep sleep_sec.
End Code.

(** *** What a trace of a mention shows *)

(** The text searched at window size [i]. *)
Definition window (arguments : list string) (i : nat) : string :=
  strip (join " " (firstn i arguments)).

(** [range(i, k - 1, -1)]: the window sizes [i], [i - 1], ..., [k]. *)
Definition down_from_to (i k : nat) : list nat :=
  rev (seq k (Datatypes.S i - k)).

(** The district search at window size [i] yields one or two
    candidates. *)
Definition accepts `{Services} (arguments : list string) (i : nat) : bool :=
  let n := List.length (search_district_by_name (window arguments i)) in
  ((1 <=? n) && (n <=? 2))%nat.

Definition is_search (e : event) : bool :=
  match e with
  | SearchDistrictByName _ => true
  | _ => false
  end.

Definition is_find_location (e : event) : bool :=
  match e with
  | FindLocation _ _ => true
  | _ => false
  end.

Definition is_reply (e : event) : bool :=
  match e with
  | PrintReply _ _ | WriteMessage _ _ _ => true
  | _ => false
  end.

Fixpoint all_chars (p : ascii -> bool) (s : string) : bool :=
  match s with
  | EmptyString => true
  | String c s' => p c && all_chars p s'
  end.

(** One of the four characters that [run] removes. *)
Definition is_punctuation (c : ascii) : bool :=
  Ascii.eqb c "," || Ascii.eqb c "." || Ascii.eqb c "!" || Ascii.eqb c "?".

(** A small index and location service: "Frankfurt am" is too
    ambiguous, "Frankfurt" names two districts; the location service
    knows two places called Neustadt, one of them a district. *)
#[export] Instance example_services : Services := {|
  search_district_by_name := fun argument =>
    if String.eqb argument "Frankfurt am" then
      [(6412, "Frankfurt am Main"); (12053, "Frankfurt (Oder)");
       (6411, "Darmstadt")]%Z
    else if String.eqb argument "Frankfurt" then
      [(6412, "Frankfurt am Main"); (12053, "Frankfurt (Oder)")]%Z
    else [];
  find_location := fun text restrict_type =>
    if String.eqb text "Neustadt" then
      if restrict_type then [7316]%Z else [7316; 9575]%Z
    else [];
  get_infection_tweet := fun district_id =>
    {| message := "figures"; images := [district_id] |}
|}.

(** *** More observations on tokens and traces *)

(** The text has nothing but whitespace and the four removed
    characters. *)
Definition blank (message : string) : bool :=
  all_chars (fun c => isspace c || is_punctuation c) message.

(** A character that can occur in a token. *)
Definition token_char (c : ascii) : bool :=
  negb (isspace c) && negb (is_punctuation c).

(** The string is empty or starts with whitespace. *)
Definition starts_with_space (s : string) : bool :=
  match s with
  | EmptyString => true
  | String c _ => isspace c
  end.

Definition is_write (e : event) : bool :=
  match e with
  | WriteMessage _ _ _ => true
  | _ => false
  end.

Definition is_print (e : event) : bool :=
  match e with
  | PrintArguments _ | PrintReply _ _ => true
  | _ => false
  end.

(** The mention is answered in state [s]. *)
Definition answered_in (s : list Z) (mention : Z * string * option string)
  : bool :=
  existsb (Z.eqb (fst (fst mention))) s.

(** What [answer_tweet] puts in front of the figures. *)
Definition reply_prefix (username : option string) : string :=
  match username with
  | Some EmptyString => EmptyString
  | Some u => u ++ " "
  | None => "None"
  end.

(** The test of line 144 on a list of tokens that is not empty. *)
Definition discards (arguments : list string) : bool :=
  match arguments with
  | [] => false
  | first :: _ =>
      (String.length first <? 4)%nat && (3 <? List.length arguments)%nat
  end.

(** The reply to a mention: printed with [no_write], tweeted without. *)
Definition reply_event (no_write : bool) (chat_id : Z) (text : string)
           (media_files : list Z) : event :=
  if no_write then PrintReply chat_id text
  else WriteMessage text media_files chat_id.

(** An index that knows the country, whose id is 0, and a location
    service that finds nothing. *)
Definition country_services : Services := {|
  search_district_by_name := fun argument =>
    if String.eqb argument "Deutschland" then [(0%Z, "Deutschland")] else [];
  find_location := fun _ _ => [];
  get_infection_tweet := fun district_id =>
    {| message := "figures"; images := [district_id] |}
|}.

End SingleCommandInterface.

(** ** covidbot/single_command_interface.py: the daily tweets *)

Module SingleCommandReports.
Import Py Py.Notations.
Local Open Scope string_scope.
Local Open Scope Z_scope.

(** The graphs of [Visualization] for the country, district id 0. *)
Inductive graph : Set := InfectionsGraph | IncidenceGraph | VaccinationGraph.

Inductive event : Type :=
| Print (text : string)
| WriteMessage (message : string) (media_files : list graph)
| SetLastUpdate (uid : string) (date : Z)
| LogInfo.                     (* "Tweet was successfully sent" *)

(** The user manager, as far as [send_daily_reports] uses it:
    [last_update_date u name] is
    [get_user(get_user_id(name)).last_update.date()], a day number. *)
Class UserManager (U : Type) : Type := {
  last_update_date : U -> string -> Z;
  set_last_update : U -> string -> Z -> U
}.

(** [write_message] is abstract in the class: an implementation answers
    whether the tweet was written. *)
Class Writer (W : Type) : Type := {
  write_message : W -> string -> list graph -> bool * W
}.

(** The country data that [get_country_data()] returns: the dates of the
    three reports as day numbers, and the texts that the three f-strings
    build from it with the names of the sources. *)
Class CountryData (D : Type) : Type := {
  date : D -> Z;
  vaccinations_date : D -> Z;
  icu_date : D -> Z;
  infections_text : D -> string;
  vaccinations_text : D -> string;
  icu_text : D -> string
}.

Definition INFECTIONS_UID : string := "infections".
Definition VACCINATIONS_UID : string := "vaccinations".
Definition ICU_UID : string := "icu".

Section Code.
Context {U W D : Type} `{UserManager U} `{Writer W} `{CountryData D}.

(** The state: the user manager and the writer. *)
Definition M : Type -> Type := Py.M (U * W) event.

Definition user_last_update (uid : string) : M Z := fun st =>
  (Ok (last_update_date (fst st) uid), st, []).

Definition user_set_last_update (uid : string) (day : Z) : M unit := fun st =>
  (Ok tt, (set_last_update (fst st) uid day, snd st),
   [SetLastUpdate uid day]).

Definition self_write_message (message : string) (media_files : list graph)
  : M bool := fun st =>
  let (ok, w) := write_message (snd st) message media_files in
  (Ok ok, (fst st, w), [WriteMessage message media_files]).

(** [send_daily_reports()] of lines 42 to 99; [germany] is what
    [self.data.get_country_data()] returned. *)
Definition send_daily_reports (no_write : bool) (germany : option D)
  : M unit :=
  match germany with
  | None => raise ValueError
  | Some germany =>
      (* Infections *)
      last <- user_last_update INFECTIONS_UID ;;
      (if last <? date germany then
         let tweet_text := infections_text germany in
         if no_write then
           emit (Print tweet_text) ;;
           user_set_last_update INFECTIONS_UID (date germany)
         else
           ok <- self_write_message tweet_text
                                    [InfectionsGraph; IncidenceGraph] ;;
           if ok : bool then
             user_set_last_update INFECTIONS_UID (date germany) ;;
             emit LogInfo
           else ret tt
       else ret tt) ;;
      (* Vaccinations *)
      last <- user_last_update VACCINATIONS_UID ;;
      (if last <? vaccinations_date germany then
         let tweet_text := vaccinations_text germany in
         if no_write then
           emit (Print tweet_text) ;;
           user_set_last_update VACCINATIONS_UID (vaccinations_date germany)
         else
           ok <- self_write_message tweet_text [VaccinationGraph] ;;
           if ok : bool then
             user_set_last_update VACCINATIONS_UID (vaccinations_date germany) ;;
             emit LogInfo
           else ret tt
       else ret tt) ;;
      (* ICU *)
      last <- user_last_update ICU_UID ;;
      if last <? icu_date germany then
        let tweet_text := icu_text germany in
        if no_write then
          emit (Print tweet_text) ;;
          user_set_last_update ICU_UID (icu_date germany)
        else
          ok <- self_write_message tweet_text [] ;;
          if ok : bool then
            emit LogInfo ;;
            user_set_last_update ICU_UID (icu_date germany)
          else ret tt
      else ret tt
  end.
End Code.

(** *** What a trace of the daily tweets shows *)

(** The texts handed to [write_message], oldest first. *)
Fixpoint written (tr : list event) : list string :=
  match tr with
  | [] => []
  | WriteMessage message _ :: tr' => message :: written tr'
  | _ :: tr' => written tr'
  end.

(** The texts printed, oldest first. *)
Fixpoint printed (tr : list event) : list string :=
  match tr with
  | [] => []
  | Print text :: tr' => text :: printed tr'
  | _ :: tr' => printed tr'
  end.

(** The user manager keeps what was set for a user and nothing else
    changes. *)
Definition keeps_updates (U : Type) `{UserManager U} : Prop :=
  forall (u : U) (uid uid' : string) (day : Z),
    last_update_date (set_last_update u uid day) uid' =
    if String.eqb uid uid' then day else last_update_date u uid'.
Arguments keeps_updates U {_}.

(** The reports of [germany] that are newer than the last update, as
    texts, in the order infections, vaccinations, ICU. *)
Definition stale_texts {U D : Type} `{UserManager U} `{CountryData D}
           (u : U) (germany : D) : list string :=
  (if last_update_date u INFECTIONS_UID <? date germany
   then [infections_text germany] else [])
  ++ (if last_update_date u VACCINATIONS_UID <? vaccinations_date germany
      then [vaccinations_text germany] else [])
  ++ (if last_update_date u ICU_UID <? icu_date germany
      then [icu_text germany] else []).

(** A user manager that is a table from user to day. *)
#[export] Instance table_user_manager : UserManager (string -> Z) := {|
  last_update_date := fun u uid => u uid;
  set_last_update := fun u uid day uid' =>
    if String.eqb uid uid' then day else u uid'
|}.

(** A writer that answers from a script and succeeds when the script is
    used up. *)
#[export] Instance scripted_writer : Writer (list bool) := {|
  write_message := fun w _ _ =>
    match w with
    | [] => (true, [])
    | ok :: w' => (ok, w')
    end
|}.

(** Country data as the three dates. *)
#[export] Instance dates_country_data : CountryData (Z * Z * Z) := {|
  date := fun d => fst (fst d);
  vaccinations_date := fun d => snd (fst d);
  icu_date := fun d => snd d;
  infections_text := fun _ => "infections";
  vaccinations_text := fun _ => "vaccinations";
  icu_text := fun _ => "icu"
|}.

(** A writer that never succeeds. *)
#[export] Instance failing_writer : Writer unit := {|
  write_message := fun w _ _ => (false, w)
|}.

End SingleCommandReports.

(** ** covidbot/signal_interface.py: incoming messages *)

Module SignalHandler.
Import Py Py.Notations.
Local Open Scope string_scope.

(** *** [str.find] and [re.sub] as [message_handler] uses them *)

(** [s.find(sub)]: the lowest index at which [sub] occurs in [s], and
    -1 when it does not occur. *)
Fixpoint find (sub s : string) : Z :=
  if String.prefix sub s then 0%Z
  else
    match s with
    | EmptyString => (-1)%Z
    | String _ s' =>
        let i := find sub s' in
        if (i =? -1)%Z then (-1)%Z else (i + 1)%Z
    end.

(** The atoms of the regular expression: a character, or [.], which
    matches every character but the newline. *)
Inductive atom : Set :=
| Lit (c : ascii)
| Dot.

Definition newline : ascii := "010"%char.

Definition atom_matches (a : atom) (c : ascii) : bool :=
  match a with
  | Lit c' => Ascii.eqb c c'
  | Dot => negb (Ascii.eqb c newline)
  end.

Fixpoint lits (s : string) : list atom :=
  match s with
  | EmptyString => []
  | String c s' => Lit c :: lits s'
  end.

(** ['\nhttps://maps.google.com/maps\?q='], the expression of
    [message_handler] without its last [.*]; the two dots of the host
    name are not escaped in the source and match any character. *)
Definition location_pattern : list atom :=
  (Lit newline :: lits "https://maps" ++ Dot :: lits "google" ++ Dot
   :: lits "com/maps" ++ Lit "?" :: lits "q=")%list.

(** The atoms match at the start of [s]: what follows them. *)
Fixpoint match_atoms (pattern : list atom) (s : string) : option string :=
  match pattern with
  | [] => Some s
  | a :: pattern' =>
      match s with
      | EmptyString => None
      | String c s' =>
          if atom_matches a c then match_atoms pattern' s' else None
      end
  end.

(** [re.sub(pattern + '.*', '', s)]: every match, found from left to
    right, is removed.  [drop] counts the characters of a match of the
    atoms that are still to be removed, [tail] says that the scan is in
    a match, where [.*] removes up to the next newline. *)
Fixpoint re_sub_from (pattern : list atom) (drop : nat) (tail : bool)
         (s : string) : string :=
  match s with
  | EmptyString => EmptyString
  | String c s' =>
      match drop with
      | Datatypes.S k => re_sub_from pattern k true s'
      | O =>
          if tail && negb (Ascii.eqb c newline)
          then re_sub_from pattern 0 true s'
          else
            match match_atoms pattern s with
            | Some _ => re_sub_from pattern (Nat.pred (List.length pattern))
                                    true s'
            | None => String c (re_sub_from pattern 0 false s')
            end
      end
  end.

Definition re_sub (pattern : list atom) (s : string) : string :=
  re_sub_from pattern 0 false s.

(** What [.*] leaves of a line: the text from the next newline on. *)
Fixpoint rest_of_line (s : string) : string :=
  match s with
  | EmptyString => EmptyString
  | String c s' => if Ascii.eqb c newline then s else rest_of_line s'
  end.

(** *** The handler *)

Inductive event : Type :=
| TypingStarted
| TypingStopped
| EnableUser (platform_id : string)
| HandleInput (text platform_id : string)
| WriteGraphic (district_id : Z)
| Reply (body : string) (attachments : list Z).

(** The bot and the text interface behind the handler: [B] is their
    state; [handle_input] is inherited from SimpleTextInterface and
    gives a reply or None. *)
Class Bot (B : Type) : Type := {
  is_user_activated : B -> string -> bool;
  enable_user : B -> string -> B;
  handle_input :
    B -> string -> string -> option SignalInterface.BotResponse * B;
  adapt_text : string -> string
}.

Definition maps_url : string := "https://maps.google.com/maps?q=".

Section Code.
Context {B : Type} `{Bot B}.

Definition M : Type -> Type := Py.M B event.

Definition bot_is_user_activated (platform_id : string) : M bool :=
  b <- get ;; ret (is_user_activated b platform_id).

Definition bot_enable_user (platform_id : string) : M unit :=
  b <- get ;;
  put (enable_user b platform_id) ;;
  emit (EnableUser platform_id).

Definition self_handle_input (text platform_id : string)
  : M (option SignalInterface.BotResponse) := fun b =>
  let (reply, b') := handle_input b text platform_id in
  (Ok reply, b', [HandleInput text platform_id]).

(** [send_reply(ctx, reply)]; the graphic of a reply is written with
    the default [district_id] of [get_attachment_path], 99. *)
Definition send_reply (reply : SignalInterface.BotResponse) : M unit :=
  let message := adapt_text (SignalInterface.message reply) in
  attachment <-
    match SignalInterface.image reply with
    | Some _ => emit (WriteGraphic 99) ;; ret [99%Z]
    | None => ret []
    end ;;
  emit (Reply message attachment).

(** [message_handler(ctx)]; [body] is [ctx.message.get_body()] and
    [source] is [ctx.message.source].  [text.find(...)] is used as a
    truth value: it is false only when it is 0. *)
Definition message_handler (body : option string) (source : string)
  : M unit :=
  match body with
  | None | Some EmptyString => ret tt
  | Some text =>
      emit TypingStarted ;;
      let text :=
        if negb (find maps_url text =? 0)%Z
        then re_sub location_pattern text
        else text in
      let platform_id := source in
      activated <- bot_is_user_activated platform_id ;;
      (if negb activated then bot_enable_user platform_id else ret tt) ;;
      reply <- self_handle_input text platform_id ;;
      match reply with
      | Some reply => send_reply reply
      | None => ret tt
      end ;;
      emit TypingStopped
  end.
End Code.

(** *** What a trace of the handler shows *)

(** The texts handed to [handle_input]. *)
Fixpoint handled (tr : list event) : list string :=
  match tr with
  | [] => []
  | HandleInput text _ :: tr' => text :: handled tr'
  | _ :: tr' => handled tr'
  end.

Definition is_reply (e : event) : bool :=
  match e with
  | Reply _ _ => true
  | _ => false
  end.

Definition no_newline (s : string) : bool :=
  SingleCommandInterface.all_chars
    (fun c => negb (Ascii.eqb c newline)) s.

(** Enabling a user activates that user. *)
Definition enabling_activates (B : Type) `{Bot B} : Prop :=
  forall (b : B) (platform_id : string),
    is_user_activated (enable_user b platform_id) platform_id = true.
Arguments enabling_activates B {_}.

(** A bot whose state is the list of activated users and which answers
    every input with its text. *)
#[export] Instance echo_bot : Bot (list string) := {|
  is_user_activated := fun b platform_id =>
    existsb (String.eqb platform_id) b;
  enable_user := fun b platform_id => platform_id :: b;
  handle_input := fun b text _ =>
    (Some {| SignalInterface.message := text;
             SignalInterface.image := None |}, b);
  adapt_text := fun text => text
|}.

End SignalHandler.

(** * Running the monad *)

Section Running.
Import Py.

Lemma bind_ok {St Ev A B : Type} (c : Py.M St Ev A) (k : A -> Py.M St Ev B)
      (s s1 : St) (a : A) (t1 : list Ev) :
  c s = (Ok a, s1, t1) ->
  bind c k s =
  (outcome (k a s1), final (k a s1), (t1 ++ events (k a s1))%list).
Proof.
  intros Hc. unfold bind. rewrite Hc.
  destruct (k a s1) as [[r s2] t2]. reflexivity.
Qed.
End Running.

(** * Properties of the dispatcher *)

Section Dispatcher.
Import Py Py.Notations SignalInterface.
Local Open Scope Q_scope.

Context {S : Type} `{Backend S}.

Lemma gt_true (x y : Q) : gt x y = true <-> y < x.
Proof.
  unfold gt. rewrite negb_true_iff, <- not_true_iff_false, Qle_bool_iff.
  split; [apply Qnot_le_lt | apply Qlt_not_le].
Qed.

Lemma gt_false (x y : Q) : gt x y = false <-> x <= y.
Proof.
  unfold gt. rewrite negb_false_iff. apply Qle_bool_iff.
Qed.

Lemma ceil_nonneg (x : Q) : 0 <= x -> (0 <= ceil x)%Z.
Proof.
  intros Hx. unfold ceil.
  change 0%Z with (Qceiling 0). now apply Qceiling_resp_le.
Qed.

Lemma xor_nonneg (x : Q) : 0 <= x -> 0 <= inject_Z (Z.lxor 2 (ceil x)).
Proof.
  intros Hx. change 0 with (inject_Z 0). rewrite <- Zle_Qle.
  apply Z.lxor_nonneg. split; intros _; [now apply ceil_nonneg | lia].
Qed.

Lemma new_backoff_nonneg (d : Q) (failed : bool) :
  0 <= d -> 0 <= new_backoff_value d failed.
Proof.
  intros Hd. unfold new_backoff_value. destruct failed.
  - now apply xor_nonneg.
  - destruct (gt d 1); [| exact Hd].
    apply Qmult_le_0_compat; [discriminate | exact Hd].
Qed.

Lemma backoff_timer_run (d : Q) (failed : bool) (u : string) (s : S) :
  0 <= d ->
  backoff_timer d failed u s =
  (Ok (new_backoff_value d failed), s,
   (if failed then [Log ERROR (ErrorSendingMessageTo u); DisableUser u]
    else [Log INFO (SentMessageTo u)])
   ++ [Log INFO (Sleeping (new_backoff_value d failed));
       Sleep (new_backoff_value d failed)]).
Proof.
  intros Hd.
  pose proof (new_backoff_nonneg failed Hd) as Hn.
  apply Qle_bool_iff in Hn. revert Hn.
  unfold backoff_timer, new_backoff_value, sleep.
  destruct failed; cbn [negb].
  - intros Hn. cbv beta iota delta [bind emit ret app]. rewrite Hn.
    reflexivity.
  - destruct (gt d 1); intros Hn;
      cbv beta iota delta [bind emit ret app]; rewrite Hn; reflexivity.
Qed.

Lemma daily_report_body_run (total : nat) (g : Z) (d : Q)
      (n : nat) (u m : string) (s : S) :
  0 <= d ->
  let success := fst (send s u (adapt_text m) [g]) in
  let d' := new_backoff_value d (negb success) in
  daily_report_body total g (d, n) (u, m) s =
  (Ok (d', Datatypes.S n), snd (send s u (adapt_text m) [g]),
   [Log INFO (TryToSendReport n); BotSendMessage u (adapt_text m) [g]]
   ++ (if success
       then [ConfirmDailyReportSend u; Log WARNING (SentDailyReport n total u);
             Log INFO (SentMessageTo u)]
       else [Log ERROR (ErrorSendingDailyReport n total u);
             Log ERROR (ErrorSendingMessageTo u); DisableUser u])
   ++ [Log INFO (Sleeping d'); Sleep d']).
Proof.
  intros Hd. cbv zeta.
  unfold daily_report_body.
  cbv beta iota delta [bind emit ret bot_send_message].
  destruct (send s u (adapt_text m) [g]) as [success s'].
  cbn [fst snd].
  destruct success; cbv beta iota;
    rewrite (backoff_timer_run _ _ _ Hd); reflexivity.
Qed.

Lemma restart_service_run (returncode : Z) (s : S) :
  restart_service returncode s =
  (Ok tt, s,
   [Log WARNING TryToRestart; Supervisorctl]
   ++ (if (returncode =? 0)%Z then [Log WARNING RestartedService]
       else [Print returncode; Log ERROR (ExitedWith returncode)])).
Proof.
  unfold restart_service.
  destruct (returncode =? 0)%Z; reflexivity.
Qed.

(** The loop of [send_daily_reports] from any non-negative delay: it
    ends without an exception, and its calls for the items are one
    block per report. *)
Lemma daily_report_loop (total : nat) (g : Z)
      (reports : list (string * string)) :
  forall (d : Q) (n : nat) (s : S),
    0 <= d ->
    exists d' tr,
      for_fold (daily_report_body total g) (d, n) reports s =
      (Ok (d', (n + List.length reports)%nat), sink_after g s reports, tr)
      /\ 0 <= d'
      /\ filter is_core tr = blocks g s reports.
Proof.
  induction reports as [| [u m] rest IH]; intros d n s Hd.
  - exists d, []. cbn. rewrite Nat.add_0_r. auto.
  - cbn [for_fold]. unfold bind at 1.
    rewrite (daily_report_body_run total g n u m s Hd). cbv zeta.
    cbn [blocks sink_after List.length].
    destruct (send s u (adapt_text m) [g]) as [success s'].
    cbn [fst snd].
    destruct (IH (new_backoff_value d (negb success)) (Datatypes.S n) s'
                 (new_backoff_nonneg _ Hd)) as (d' & tr & Hrun & Hd' & Hcore).
    rewrite Hrun. eexists d', _. split; [| split].
    + rewrite Nat.add_succ_r. reflexivity.
    + exact Hd'.
    + rewrite !filter_app, Hcore. destruct success; reflexivity.
Qed.

Lemma send_daily_reports_run (reports : list (string * string))
      (uniform : Q) (returncode : Z) (s : S) :
  0 <= uniform ->
  reports <> [] ->
  exists tr,
    send_daily_reports reports uniform returncode s =
    (Ok tt, sink_after 0%Z s reports,
     [Log WARNING (ToSend (List.length reports)); WriteGraphic 0]
     ++ tr
     ++ [Log WARNING TryToRestart; Supervisorctl]
     ++ (if (returncode =? 0)%Z then [Log WARNING RestartedService]
         else [Print returncode; Log ERROR (ExitedWith returncode)]))
    /\ filter is_core tr = blocks 0%Z s reports
    /\ tr = events (for_fold (daily_report_body (List.length reports) 0%Z)
                             (uniform, 0%nat) reports s).
Proof.
  intros Hd Hne.
  destruct (daily_report_loop (List.length reports) 0%Z reports 0%nat s Hd)
    as (d' & tr & Hrun & _ & Hcore).
  exists tr. split; [| split; [exact Hcore | now rewrite Hrun]].
  unfold send_daily_reports.
  destruct reports as [| r rest]; [congruence |].
  set (rs := r :: rest) in *.
  cbv beta iota delta [bind emit ret get_attachment_path].
  rewrite Hrun, restart_service_run. reflexivity.
Qed.

Lemma core_of_batch (pre tr post : list event) :
  filter is_core pre = [] -> filter is_core post = [] ->
  filter is_core (pre ++ tr ++ post) = filter is_core tr.
Proof.
  intros Hpre Hpost. now rewrite !filter_app, Hpre, Hpost, app_nil_r.
Qed.

Lemma restart_events_not_core (returncode : Z) :
  filter is_core
    ([Log WARNING TryToRestart; Supervisorctl]
     ++ (if (returncode =? 0)%Z then [Log WARNING RestartedService]
         else [Print returncode; Log ERROR (ExitedWith returncode)])) = [].
Proof. destruct (returncode =? 0)%Z; reflexivity. Qed.

Lemma attempts_core (tr : list event) :
  attempts (filter is_core tr) = attempts tr.
Proof.
  induction tr as [| e tr IH]; [reflexivity |].
  destruct e; cbn; now rewrite ?IH.
Qed.

Lemma terminal_core (tr : list event) :
  filter is_terminal (filter is_core tr) = filter is_terminal tr.
Proof.
  induction tr as [| e tr IH]; [reflexivity |].
  destruct e; cbn; now rewrite ?IH.
Qed.

Lemma attempts_blocks (g : Z) (reports : list (string * string)) :
  forall s : S,
    attempts (blocks g s reports) =
    map (fun r => (fst r, adapt_text (snd r))) reports.
Proof.
  induction reports as [| [u m] rest IH]; intros s; [reflexivity |].
  cbn [blocks]. destruct (send s u (adapt_text m) [g]) as [success s'].
  destruct success; cbn; now rewrite IH.
Qed.

Lemma terminal_blocks (g : Z) (reports : list (string * string)) :
  forall s : S,
    filter is_terminal (blocks g s reports) =
    map (fun x : string * string * bool =>
           if snd x then ConfirmDailyReportSend (fst (fst x))
                  else DisableUser (fst (fst x)))
        (combine reports (outcomes g s reports)).
Proof.
  induction reports as [| [u m] rest IH]; intros s; [reflexivity |].
  cbn [blocks outcomes]. destruct (send s u (adapt_text m) [g]) as [success s'].
  destruct success; cbn; now rewrite IH.
Qed.

Lemma outcomes_length (g : Z) (reports : list (string * string)) :
  forall s : S, List.length (outcomes g s reports) = List.length reports.
Proof.
  induction reports as [| [u m] rest IH]; intros s; [reflexivity |].
  cbn [outcomes]. destruct (send s u (adapt_text m) [g]) as [success s'].
  cbn. now rewrite IH.
Qed.

Lemma blocks_app (g : Z) (pre post : list (string * string)) :
  forall s : S,
    blocks g s (pre ++ post) =
    blocks g s pre ++ blocks g (sink_after g s pre) post.
Proof.
  induction pre as [| [u m] rest IH]; intros s; [reflexivity |].
  cbn [app blocks sink_after].
  destruct (send s u (adapt_text m) [g]) as [success s'].
  cbn [snd app]. now rewrite IH.
Qed.

(** From a delay between 0 and 3 seconds a step of the backoff gives a
    delay between 0 and 3 seconds, whatever the outcome of the send. *)
Lemma new_backoff_range (d : Q) (failed : bool) :
  0 <= d <= 3 -> 0 <= new_backoff_value d failed <= 3.
Proof.
  intros [Hlo Hhi]. split; [now apply new_backoff_nonneg |].
  unfold new_backoff_value. destruct failed.
  - pose proof (ceil_nonneg Hlo) as Hc.
    assert (ceil d <= 3)%Z as Hc'
        by (unfold ceil; change 3%Z with (Qceiling 3);
            now apply Qceiling_resp_le).
    assert (ceil d = 0 \/ ceil d = 1 \/ ceil d = 2 \/ ceil d = 3)%Z
      as [E | [E | [E | E]]] by lia;
      rewrite E; cbn; discriminate.
  - destruct (gt d 1); lra.
Qed.

(** Every failure at a delay above 1 and up to 2 seconds sets the delay
    to 0: the ceiling is 2, and 2 xor 2 is 0. *)
Lemma failure_between_one_and_two (d : Q) :
  1 < d <= 2 -> new_backoff_value d true = 0.
Proof.
  intros [Hlo Hhi]. unfold new_backoff_value, ceil.
  assert (Qceiling d <= 2)%Z as Hle
      by (change 2%Z with (Qceiling 2); now apply Qceiling_resp_le).
  assert (1 < Qceiling d)%Z as Hgt.
  { rewrite Zlt_Qlt. change (inject_Z 1) with 1.
    eapply Qlt_le_trans; [exact Hlo | apply Qle_ceiling]. }
  replace (Qceiling d) with 2%Z by lia. reflexivity.
Qed.

(** The sleeps of the loop of [send_daily_reports] stay between 0 and 3
    seconds when the delay starts there. *)
Lemma daily_report_loop_sleeps (total : nat) (g : Z)
      (reports : list (string * string)) :
  forall (d : Q) (n : nat) (s : S) (secs : Q),
    0 <= d <= 3 ->
    In (Sleep secs)
       (events (for_fold (daily_report_body total g) (d, n) reports s)) ->
    0 <= secs <= 3.
Proof.
  induction reports as [| [u m] rest IH]; intros d n s secs Hd Hin.
  - destruct Hin.
  - cbn [for_fold] in Hin.
    erewrite bind_ok in Hin
      by apply (daily_report_body_run total g n u m s (proj1 Hd)).
    unfold events at 1 in Hin. cbn [snd] in Hin.
    pose proof (new_backoff_range
                  (negb (fst (send s u (adapt_text m) [g]))) Hd) as Hd'.
    rewrite !in_app_iff in Hin. destruct Hin as [[Hin | [Hin | Hin]] | Hin].
    + cbn in Hin. intuition discriminate.
    + destruct (fst (send s u (adapt_text m) [g])); cbn in Hin;
        intuition discriminate.
    + cbn in Hin. destruct Hin as [Hin | [Hin | []]]; [discriminate |].
      injection Hin as <-. exact Hd'.
    + eapply IH; [exact Hd' | exact Hin].
Qed.

(** A batch of [send_daily_reports] that starts with a delay drawn from
    0.5 to 2 seconds never sleeps a negative time nor more than 3
    seconds. *)
Lemma send_daily_reports_sleeps (reports : list (string * string))
      (uniform : Q) (returncode : Z) (s : S) (secs : Q) :
  (1 # 2) <= uniform <= 2 ->
  In (Sleep secs) (events (send_daily_reports reports uniform returncode s)) ->
  0 <= secs <= 3.
Proof.
  intros [Hlo Hhi] Hin.
  assert (0 <= uniform <= 3) as Hd by (split; lra).
  destruct reports as [| r rest] eqn:E; [destruct Hin |].
  rewrite <- E in *.
  assert (reports <> []) as Hne by (rewrite E; discriminate).
  destruct (send_daily_reports_run returncode s (proj1 Hd) Hne)
    as (tr & Hall & _ & ->).
  rewrite Hall in Hin. unfold events at 1 in Hin. cbn [snd] in Hin.
  rewrite !in_app_iff in Hin. destruct Hin as [Hin | [Hin | [Hin | Hin]]].
  - cbn in Hin. intuition discriminate.
  - eapply daily_report_loop_sleeps; [exact Hd | exact Hin].
  - cbn in Hin. intuition discriminate.
  - destruct (returncode =? 0)%Z; cbn in Hin; intuition discriminate.
Qed.

(** C6: for every batch of [send_daily_reports] (the draw of
    [random.uniform(0.5, 2)] is not negative) there are as many send
    attempts as reports, the attempts are made in the order of the
    list, and every report gets exactly one terminal transition, in
    that order: delivery confirmed when the send succeeded, recipient
    disabled when it failed. *)
Theorem send_daily_reports_one_attempt_per_report
        (reports : list (string * string)) (uniform : Q)
        (returncode : Z) (s : S) :
  0 <= uniform ->
  let run := send_daily_reports reports uniform returncode s in
  outcome run = Ok tt
  /\ List.length (attempts (events run)) = List.length reports
  /\ attempts (events run) =
     map (fun r => (fst r, adapt_text (snd r))) reports
  /\ List.length (filter is_terminal (events run)) = List.length reports
  /\ filter is_terminal (events run) =
     map (fun x : string * string * bool =>
            if snd x then ConfirmDailyReportSend (fst (fst x))
            else DisableUser (fst (fst x)))
         (combine reports (outcomes 0%Z s reports)).
Proof.
  intros Hd. cbv zeta.
  destruct reports as [| r rest] eqn:E.
  - cbn. auto.
  - rewrite <- E.
    assert (reports <> []) as Hne by (rewrite E; discriminate).
    destruct (send_daily_reports_run returncode s Hd Hne)
      as (tr & -> & Hcore & _).
    unfold outcome, events. cbn [fst snd].
    assert (filter is_core
              ([Log WARNING (ToSend (List.length reports)); WriteGraphic 0]
               ++ tr
               ++ [Log WARNING TryToRestart; Supervisorctl]
               ++ (if (returncode =? 0)%Z then [Log WARNING RestartedService]
                   else [Print returncode;
                         Log ERROR (ExitedWith returncode)]))
            = blocks 0%Z s reports) as Hall.
    { rewrite core_of_batch; auto using restart_events_not_core. }
    rewrite <- attempts_core, <- terminal_core, Hall.
    rewrite attempts_blocks, terminal_blocks.
    rewrite !length_map, length_combine, outcomes_length, Nat.min_id.
    auto.
Qed.

(** C7: after a successful send of a daily report from a non-negative
    delay, the new delay is 0.7 times the old one when the old one
    exceeds 1 second and the old one otherwise, the batch sleeps for
    it, and the report is confirmed with [confirm_daily_report_send]. *)
Theorem successful_send_decays_and_confirms
        (total : nat) (g : Z) (d : Q) (n : nat)
        (u m : string) (s : S) :
  0 <= d ->
  fst (send s u (adapt_text m) [g]) = true ->
  exists d' tr,
    daily_report_body total g (d, n) (u, m) s =
    (Ok (d', Datatypes.S n), snd (send s u (adapt_text m) [g]), tr)
    /\ backoff_timer d false u s =
       (Ok d', s, [Log INFO (SentMessageTo u); Log INFO (Sleeping d');
                   Sleep d'])
    /\ (1 < d -> d' = (7 # 10) * d)
    /\ (d <= 1 -> d' = d)
    /\ In (ConfirmDailyReportSend u) tr
    /\ In (Sleep d') tr.
Proof.
  intros Hd Hok.
  pose proof (daily_report_body_run total g n u m s Hd) as Hrun.
  cbv zeta in Hrun. rewrite Hok in Hrun. cbn [negb] in Hrun.
  eexists _, _. split; [exact Hrun |].
  split; [apply (backoff_timer_run false u s Hd) |].
  unfold new_backoff_value.
  split; [| split; [| split]].
  - intros Hgt. apply gt_true in Hgt. now rewrite Hgt.
  - intros Hle. apply gt_false in Hle. now rewrite Hle.
  - cbn. auto.
  - cbn. auto 10.
Qed.

(** C8: when the send of a report fails, the batch goes on without an
    exception: after the reports before it, that report is sent once,
    its recipient is disabled, and the next calls are those of the
    reports after it; it is not sent again. *)
Theorem failed_send_disables_and_continues
        (pre post : list (string * string)) (u m : string)
        (uniform : Q) (returncode : Z) (s : S) :
  0 <= uniform ->
  fst (send (sink_after 0%Z s pre) u (adapt_text m) [0%Z]) = false ->
  let run :=
    send_daily_reports (pre ++ (u, m) :: post) uniform returncode s in
  outcome run = Ok tt
  /\ filter is_core (events run) =
     blocks 0%Z s pre
     ++ [BotSendMessage u (adapt_text m) [0%Z]; DisableUser u]
     ++ blocks 0%Z (snd (send (sink_after 0%Z s pre) u (adapt_text m) [0%Z]))
               post
  /\ List.length (attempts (events run)) =
     (List.length pre + 1 + List.length post)%nat.
Proof.
  intros Hd Hfail. cbv zeta.
  assert (pre ++ (u, m) :: post <> []) as Hne
      by (destruct pre; discriminate).
  destruct (send_daily_reports_run returncode s Hd Hne)
    as (tr & -> & Hcore & _).
  unfold outcome, events. cbn [fst snd].
  split; [reflexivity |].
  assert (filter is_core
            ([Log WARNING (ToSend (List.length (pre ++ (u, m) :: post)));
              WriteGraphic 0]
             ++ tr
             ++ [Log WARNING TryToRestart; Supervisorctl]
             ++ (if (returncode =? 0)%Z then [Log WARNING RestartedService]
                 else [Print returncode;
                       Log ERROR (ExitedWith returncode)]))
          = blocks 0%Z s (pre ++ (u, m) :: post)) as Hall.
  { rewrite core_of_batch; auto using restart_events_not_core. }
  split.
  - rewrite Hall, blocks_app. cbn [blocks].
    destruct (send (sink_after 0%Z s pre) u (adapt_text m) [0%Z])
      as [success s'].
    cbn [fst snd] in *. subst success. reflexivity.
  - rewrite <- attempts_core, Hall, attempts_blocks, length_map, length_app.
    cbn [List.length]. lia.
Qed.

Lemma message_body_run (message : string) (append_report : bool)
      (d : Q) (user : string) (s : S) :
  0 <= d ->
  exists d' s' tr,
    message_body message append_report d user s = (Ok d', s', tr)
    /\ 0 <= d'.
Proof.
  intros Hd. unfold message_body.
  cbv beta iota delta [bind emit ret bot_send_message].
  destruct (send s user (adapt_text message) []) as [success s1].
  cbv beta iota.
  rewrite (backoff_timer_run (negb success) user s1 Hd).
  pose proof (new_backoff_nonneg (negb success) Hd) as Hd1.
  set (d1 := new_backoff_value d (negb success)) in *.
  cbv beta iota.
  destruct append_report.
  - destruct (image (reportHandler EmptyString user));
      cbv beta iota delta [bind emit ret get_attachment_path];
      match goal with
      | |- context [send s1 user ?body ?atts] =>
          destruct (send s1 user body atts) as [success2 s2]
      end;
      rewrite (backoff_timer_run (negb success2) user s2 Hd1);
      eexists _, _, _; (split; [reflexivity |]);
      now apply new_backoff_nonneg.
  - eexists _, _, _. split; [reflexivity | exact Hd1].
Qed.

Lemma message_loop (message : string) (append_report : bool)
      (users : list string) :
  forall (d : Q) (s : S),
    0 <= d ->
    exists d' s' tr,
      for_fold (message_body message append_report) d users s
      = (Ok d', s', tr).
Proof.
  induction users as [| user rest IH]; intros d s Hd.
  - eexists _, _, _. reflexivity.
  - cbn [for_fold]. unfold bind at 1.
    destruct (message_body_run message append_report user s Hd)
      as (d1 & s1 & tr1 & -> & Hd1).
    destruct (IH d1 s1 Hd1) as (d2 & s2 & tr2 & ->).
    eexists _, _, _. reflexivity.
Qed.

(** C9, as the code has it: [send_daily_reports] runs the restart
    command at the end of a batch exactly when a report was attempted,
    [send_message] runs it at the end of every call; the command comes
    after all the sends, whatever their outcomes, and an exit status
    other than zero is logged as an error while the call returns
    normally. *)
Theorem restart_after_batch
        (reports : list (string * string)) (message : string)
        (users : list string) (append_report : bool)
        (all_users : list string) (uniform : Q) (returncode : Z) (s : S) :
  0 <= uniform ->
  let tail :=
    [Log WARNING TryToRestart; Supervisorctl]
    ++ (if (returncode =? 0)%Z then [Log WARNING RestartedService]
        else [Print returncode; Log ERROR (ExitedWith returncode)]) in
  let daily := send_daily_reports reports uniform returncode s in
  let msg :=
    send_message message users append_report all_users uniform returncode s in
  (outcome daily = Ok tt
   /\ (In Supervisorctl (events daily) <-> attempts (events daily) <> [])
   /\ (reports <> [] ->
       exists tr, events daily = tr ++ tail
                  /\ attempts tr = attempts (events daily)))
  /\ (outcome msg = Ok tt
      /\ exists tr, events msg = tr ++ tail
                    /\ attempts tr = attempts (events msg))
  /\ (returncode <> 0%Z -> In (Log ERROR (ExitedWith returncode)) tail).
Proof.
  intros Hd. cbv zeta. split; [| split].
  3: { intros Hrc. destruct (Z.eqb_spec returncode 0); [congruence |].
       cbn. auto. }
  - destruct reports as [| r rest] eqn:E.
    + cbn. repeat split; tauto.
    + rewrite <- E.
      assert (reports <> []) as Hne by (rewrite E; discriminate).
      destruct (send_daily_reports_run returncode s Hd Hne)
        as (tr & -> & Hcore & _).
      unfold outcome, events. cbn [fst snd].
      split; [reflexivity |]. split.
      * split.
        -- intros _.
           rewrite <- attempts_core, core_of_batch, Hcore, attempts_blocks;
             auto using restart_events_not_core.
           rewrite E. discriminate.
        -- intros _. rewrite !in_app_iff. right. right. left.
           cbn. auto.
      * intros _.
        exists ([Log WARNING (ToSend (List.length reports)); WriteGraphic 0]
                ++ tr).
        split; [now rewrite <- !app_assoc |].
        rewrite <- (attempts_core (_ ++ tr ++ _)), core_of_batch;
          auto using restart_events_not_core.
        rewrite <- (attempts_core (_ ++ tr)).
        rewrite filter_app. reflexivity.
  - unfold send_message.
    set (us := match users with [] => all_users | _ :: _ => users end).
    destruct (message_loop message append_report us s Hd)
      as (d' & s' & tr & Hrun).
    unfold bind. rewrite Hrun, restart_service_run.
    unfold outcome, events. cbn [fst snd].
    split; [reflexivity |].
    exists tr. split; [reflexivity |].
    rewrite <- (attempts_core (tr ++ _)), filter_app,
      restart_events_not_core, app_nil_r.
    now rewrite attempts_core.
Qed.
End Dispatcher.

(** ** The dispatcher on a scripted sink *)

Section DispatcherExamples.
Import Py Py.Notations SignalInterface.
Local Open Scope Q_scope.
Local Open Scope string_scope.

(** C1: a failed send at a delay of 1.5 seconds.  [ceil(1.5)] is 2 and
    [2 ^ 2] is 0: the recipient is disabled and the new delay is 0
    seconds, which neither exceeds the old delay nor doubles it. *)
Theorem backoff_timer_failure_drops_to_zero :
  backoff_timer (3 # 2) true "user" ([] : list bool) =
  (Ok 0, [],
   [Log ERROR (ErrorSendingMessageTo "user"); DisableUser "user";
    Log INFO (Sleeping 0); Sleep 0])
  /\ 0 < 3 # 2 /\ ~ 3 # 2 < 0 /\ ~ 2 * (3 # 2) <= 0.
Proof.
  split; [reflexivity |].
  repeat split; intros; try discriminate; auto.
Qed.

(** C2: a batch of one report whose send fails, with an initial delay
    of 1.5 seconds, inside the range of [random.uniform(0.5, 2)]: the
    batch sleeps 0 seconds, below the lower end 0.5 of that range. *)
Theorem daily_reports_delay_falls_below_floor :
  (1 # 2) <= 3 # 2 /\ 3 # 2 <= 2
  /\ In (Sleep 0)
        (events (send_daily_reports [("user", "report")] (3 # 2) 0 [false]))
  /\ 0 < (1 # 2).
Proof.
  repeat split; try discriminate.
  cbn. auto 10.
Qed.

(** C9 as stated fails for [send_message]: with no recipient at all it
    sends nothing and still runs the restart command. *)
Lemma send_message_restarts_without_attempt :
  let msg := send_message "hello" [] false [] 2 0 ([] : list bool) in
  ~ (In Supervisorctl (events msg) <-> attempts (events msg) <> []).
Proof.
  cbn. intros [Hrestart _]. apply Hrestart; auto.
Qed.

Lemma send_daily_reports_one_attempt_per_report_witness :
  0 <= 3 # 2
  /\ let run :=
       send_daily_reports [("alice", "r1"); ("bob", "r2")] (3 # 2) 0
                          [false; true] in
     outcome run = Ok tt
     /\ attempts (events run) = [("alice", "r1"); ("bob", "r2")]
     /\ filter is_terminal (events run) =
        [DisableUser "alice"; ConfirmDailyReportSend "bob"].
Proof.
  assert (0 <= 3 # 2) as Hd by discriminate.
  split; [exact Hd |].
  destruct (@send_daily_reports_one_attempt_per_report
              (list bool) scripted_backend
              [("alice", "r1"); ("bob", "r2")] (3 # 2) 0 [false; true] Hd)
    as (Hok & _ & Hatt & _ & Hterm).
  cbv zeta. split; [exact Hok |]. split; [exact Hatt | exact Hterm].
Defined.

Lemma successful_send_decays_and_confirms_witness :
  0 <= 2
  /\ fst (send [true] "alice" (adapt_text "r1") [0%Z]) = true
  /\ exists d' tr,
      daily_report_body 1 0 (2, 0%nat) ("alice", "r1") [true] =
      (Ok (d', 1%nat), [], tr)
      /\ (1 < 2 -> d' = (7 # 10) * 2)
      /\ In (ConfirmDailyReportSend "alice") tr.
Proof.
  assert (0 <= 2) as Hd by discriminate.
  split; [exact Hd |]. split; [reflexivity |].
  destruct (@successful_send_decays_and_confirms
              (list bool) scripted_backend 1 0 2 0 "alice" "r1" [true]
              Hd eq_refl)
    as (d' & tr & Hrun & _ & Hgt & _ & Hconfirm & _).
  exists d', tr. split; [exact Hrun |]. split; [exact Hgt | exact Hconfirm].
Defined.

Lemma failed_send_disables_and_continues_witness :
  0 <= 1
  /\ fst (send (sink_after 0%Z [true; false; true] [("alice", "r1")])
               "bob" (adapt_text "r2") [0%Z]) = false
  /\ let run :=
       send_daily_reports
         ([("alice", "r1")] ++ ("bob", "r2") :: [("carol", "r3")])
         1 0 [true; false; true] in
     outcome run = Ok tt
     /\ filter is_core (events run) =
        [BotSendMessage "alice" "r1" [0%Z]; ConfirmDailyReportSend "alice";
         BotSendMessage "bob" "r2" [0%Z]; DisableUser "bob";
         BotSendMessage "carol" "r3" [0%Z]; ConfirmDailyReportSend "carol"].
Proof.
  assert (0 <= 1) as Hd by discriminate.
  split; [exact Hd |]. split; [reflexivity |].
  destruct (@failed_send_disables_and_continues
              (list bool) scripted_backend
              [("alice", "r1")] [("carol", "r3")] "bob" "r2" 1 0
              [true; false; true] Hd eq_refl)
    as (Hok & Hcore & _).
  cbv zeta. split; [exact Hok | exact Hcore].
Defined.

Lemma restart_after_batch_witness :
  0 <= 1
  /\ In Supervisorctl
        (events (send_daily_reports [("alice", "r1")] 1 3 [false]))
  /\ outcome (send_message "hello" ["bob"] true [] 1 3 [false]) = Ok tt.
Proof.
  assert (0 <= 1) as Hd by discriminate.
  split; [exact Hd |].
  destruct (@restart_after_batch
              (list bool) scripted_backend
              [("alice", "r1")] "hello" ["bob"] true [] 1 3 [false] Hd)
    as ((_ & Hiff & _) & (Hok & _) & _).
  split; [| exact Hok].
  apply Hiff. discriminate.
Defined.
End DispatcherExamples.

(** * Properties of the mention handler *)

Section Resolver.
Import Py Py.Notations SingleCommandInterface.
Local Open Scope string_scope.
Local Open Scope nat_scope.

Context `{Services}.

Lemma down_from_to_step (i k : nat) :
  k <= Datatypes.S i ->
  down_from_to (Datatypes.S i) k = Datatypes.S i :: down_from_to i k.
Proof.
  intros Hk. unfold down_from_to.
  replace (Datatypes.S (Datatypes.S i) - k)
    with (Datatypes.S (Datatypes.S i - k)) by lia.
  rewrite seq_S, rev_app_distr. cbn [rev app]. f_equal. lia.
Qed.

Lemma down_from_to_one (k : nat) : down_from_to k k = [k].
Proof.
  unfold down_from_to.
  replace (Datatypes.S k - k) with 1 by lia. reflexivity.
Qed.

(** One turn of the loop over the window sizes. *)
Lemma search_windows_step (arguments : list string) (j : nat) (s : list Z) :
  let w := window arguments (Datatypes.S j) in
  search_windows arguments (Datatypes.S j) s =
  if accepts arguments (Datatypes.S j) then
    (Ok (option_map fst (hd_error (search_district_by_name w))), s,
     [SearchDistrictByName w])
  else
    (outcome (search_windows arguments j s),
     final (search_windows arguments j s),
     SearchDistrictByName w :: events (search_windows arguments j s)).
Proof.
  cbv zeta. unfold accepts. cbn [search_windows].
  fold (window arguments (Datatypes.S j)).
  cbv beta iota delta [bind emit ret data_search_district_by_name].
  destruct (search_district_by_name (window arguments (Datatypes.S j)))
    as [| first [| second [| third rest]]];
    cbn [List.length Nat.leb andb]; cbv beta iota;
    destruct (search_windows arguments j s) as [[r s'] tr]; reflexivity.
Qed.

(** The loop never raises and leaves the state alone. *)
Lemma search_windows_total (arguments : list string) (s : list Z) :
  forall i, exists r tr,
    search_windows arguments i s = (Ok r, s, tr)
    /\ filter is_find_location tr = []
    /\ filter is_reply tr = [].
Proof.
  induction i as [| j (r & tr & Hrun & Hfind & Hreply)].
  - exists None, []. auto.
  - rewrite search_windows_step. cbv zeta. rewrite Hrun.
    destruct (accepts arguments (Datatypes.S j)); eexists _, _;
      (split; [reflexivity |]); cbn; auto.
Qed.

Lemma search_windows_rejected (arguments : list string) (s : list Z) :
  forall i,
    (forall j, 1 <= j <= i -> accepts arguments j = false) ->
    search_windows arguments i s =
    (Ok None, s,
     map (fun j => SearchDistrictByName (window arguments j))
         (down_from_to i 1)).
Proof.
  induction i as [| i IH]; intros Hrej; [reflexivity |].
  rewrite search_windows_step. cbv zeta.
  rewrite (Hrej (Datatypes.S i)) by lia.
  rewrite IH by (intros j Hj; apply Hrej; lia).
  rewrite down_from_to_step by lia. reflexivity.
Qed.

Lemma search_windows_accepted (arguments : list string) (s : list Z)
      (k : nat) :
  forall i,
    1 <= k <= i ->
    accepts arguments k = true ->
    (forall j, k < j <= i -> accepts arguments j = false) ->
    search_windows arguments i s =
    (Ok (option_map fst
                    (hd_error (search_district_by_name (window arguments k)))),
     s,
     map (fun j => SearchDistrictByName (window arguments j))
         (down_from_to i k)).
Proof.
  induction i as [| i IH]; intros Hk Hacc Hrej; [lia |].
  rewrite search_windows_step. cbv zeta.
  destruct (Nat.eq_dec k (Datatypes.S i)) as [-> | Hne].
  - rewrite Hacc, down_from_to_one. reflexivity.
  - rewrite (Hrej (Datatypes.S i)) by lia.
    rewrite IH by (try lia; auto; intros j Hj; apply Hrej; lia).
    rewrite down_from_to_step by lia. reflexivity.
Qed.

Lemma searches_not_find_location (arguments : list string) (l : list nat) :
  filter is_find_location
         (map (fun j => SearchDistrictByName (window arguments j)) l) = [].
Proof. induction l; auto. Qed.

(** C4: when no window of the district index is accepted, the location
    service is asked for the whole text, all tokens joined by spaces.
    One hit is taken.  More than one hit leads to one more query, with
    [restrict_type=True], whose hit is taken when it is the only one.
    In all other cases no district is found. *)
Theorem resolve_falls_back_to_location_service
        (arguments : list string) (s : list Z) :
  let n := Nat.min (List.length arguments) 3 in
  let text := join " " arguments in
  let run := resolve arguments s in
  let lookups := filter is_find_location (events run) in
  let hits := find_location text false in
  let restricted := find_location text true in
  (forall j, 1 <= j <= n -> accepts arguments j = false) ->
  (List.length hits = 0 ->
   outcome run = Ok None /\ lookups = [FindLocation text false])
  /\ (List.length hits = 1 ->
      outcome run = Ok (hd_error hits)
      /\ lookups = [FindLocation text false])
  /\ (1 < List.length hits ->
      lookups = [FindLocation text false; FindLocation text true]
      /\ (List.length restricted = 1 -> outcome run = Ok (hd_error restricted))
      /\ (List.length restricted <> 1 -> outcome run = Ok None)).
Proof.
  cbv zeta. intros Hrej. unfold resolve.
  erewrite bind_ok by apply (search_windows_rejected arguments s Hrej).
  unfold outcome, events. cbn [fst snd].
  rewrite filter_app, searches_not_find_location. cbn [app].
  unfold check_osm. cbn [truthy negb].
  cbv beta iota delta [bind emit ret location_service_find_location].
  destruct (find_location (join " " arguments) false) as [| x [| y hits]].
  - cbn. repeat split; auto; lia.
  - cbn. repeat split; auto; lia.
  - cbv beta iota.
    destruct (find_location (join " " arguments) true) as [| x' [| y' r]];
      cbn; repeat split; auto; intros; try lia; congruence.
Qed.

(** The id 0 is false in Python: when the index gave 0 as the district,
    "if not district_id" holds and the location service is asked all the
    same; with no hit there, [district_id] stays 0 and no reply is
    written. *)
Lemma check_osm_after_district_zero (arguments : list string) (s : list Z) :
  hd_error (events (check_osm arguments (Some 0%Z) s)) =
  Some (FindLocation (join " " arguments) false)
  /\ forall no_write chat_id username s',
      events (answer_tweet no_write chat_id arguments username (Some 0%Z) s')
      = [].
Proof.
  split; [| reflexivity].
  unfold check_osm. cbn [truthy negb Z.eqb].
  cbv beta iota delta [bind emit ret location_service_find_location].
  destruct (find_location (join " " arguments) false) as [| x [| y hits]];
    try reflexivity.
  cbv beta iota.
  destruct (find_location (join " " arguments) true) as [| x' [| y' r]];
    reflexivity.
Qed.

(** C5: a mention whose first token is shorter than 4 characters and
    which has more than 3 tokens is not looked up: handling it ends
    normally with no search of the district index, no query to the
    location service and no reply, and the mention is answered
    afterwards; when it was not answered before, all that happens is
    the warning, [set_message_answered] and the two counters. *)
Theorem chatty_mention_is_discarded
        (no_write : bool) (chat_id : Z) (message : string)
        (username : option string) (first : string) (s : list Z) :
  hd_error (tokenize message) = Some first ->
  String.length first < 4 ->
  3 < List.length (tokenize message) ->
  let run := mention_body no_write (chat_id, message, username) s in
  outcome run = Ok tt
  /\ filter is_search (events run) = []
  /\ filter is_find_location (events run) = []
  /\ filter is_reply (events run) = []
  /\ existsb (Z.eqb chat_id) (final run) = true
  /\ (existsb (Z.eqb chat_id) s = false ->
      events run =
      [RecvMessageCountInc; LogWarning (tokenize message);
       SetMessageAnswered chat_id; DiscardedMessageCountInc]).
Proof.
  intros Hfirst Hshort Hmany. cbv zeta.
  apply Nat.ltb_lt in Hshort, Hmany.
  unfold mention_body.
  cbv beta iota delta [bind is_message_answered get ret].
  destruct (existsb (Z.eqb chat_id) s) eqn:Hans.
  - cbn. repeat split; auto. discriminate.
  - cbv beta iota zeta delta [bind emit ret getitem].
    destruct (tokenize message) as [| tok rest] eqn:Htok; [discriminate |].
    cbn in Hfirst. injection Hfirst as ->.
    cbn [nth_error]. cbv beta iota delta [ret].
    rewrite Hshort, Hmany. cbn [andb].
    cbv beta iota delta [bind emit ret set_message_answered get put].
    cbn. rewrite Z.eqb_refl. repeat split; auto.
Qed.


Lemma replace_all_chars (p : ascii -> bool) (old : ascii) (s : string) :
  all_chars (fun c => p c || Ascii.eqb c old) s = true ->
  all_chars p (replace old s) = true.
Proof.
  induction s as [| c s IH]; [reflexivity |].
  cbn. rewrite andb_true_iff. intros [Hc Hs].
  destruct (Ascii.eqb c old); [auto |].
  cbn. rewrite orb_false_r in Hc. now rewrite Hc, IH.
Qed.



Lemma check_osm_total (arguments : list string) (district_id : option Z)
      (s : list Z) :
  exists r tr, check_osm arguments district_id s = (Ok r, s, tr).
Proof.
  unfold check_osm.
  destruct (negb (truthy district_id)); [| eexists _, _; reflexivity].
  cbv beta iota delta [bind emit ret location_service_find_location].
  destruct (find_location (join " " arguments) false) as [| x [| y hits]];
    try (eexists _, _; reflexivity).
  cbv beta iota.
  destruct (find_location (join " " arguments) true) as [| x' [| y' r]];
    eexists _, _; reflexivity.
Qed.

Lemma answer_tweet_total (no_write : bool) (chat_id : Z)
      (arguments : list string) (username : option string)
      (district_id : option Z) (s : list Z) :
  exists tr,
    answer_tweet no_write chat_id arguments username district_id s
    = (Ok tt, s, tr).
Proof.
  unfold answer_tweet.
  destruct district_id as [id |]; [| eexists; reflexivity].
  destruct (truthy (Some id)); [| eexists; reflexivity].
  destruct no_write; eexists; reflexivity.
Qed.


Lemma searches_are_searches (arguments : list string) (l : list nat) :
  filter is_search
         (map (fun j => SearchDistrictByName (window arguments j)) l)
  = map (fun j => SearchDistrictByName (window arguments j)) l.
Proof. induction l as [| j l IH]; [reflexivity |]. cbn. now rewrite IH. Qed.

Lemma check_osm_has_no_search (arguments : list string)
      (district_id : option Z) (s : list Z) :
  filter is_search (events (check_osm arguments district_id s)) = [].
Proof.
  unfold check_osm.
  destruct (negb (truthy district_id)); [| reflexivity].
  cbv beta iota delta [bind emit ret location_service_find_location].
  destruct (find_location (join " " arguments) false) as [| x [| y hits]];
    try reflexivity.
  cbv beta iota.
  destruct (find_location (join " " arguments) true) as [| x' [| y' r]];
    reflexivity.
Qed.

(** What [resolve] does around the loop: it runs the loop from window
    size [min(len(arguments), 3)] and hands the district of the loop to
    the check of the location service. *)
Lemma resolve_after_windows (arguments : list string) (s : list Z)
      (district_id : option Z) (searches : list event) :
  search_windows arguments (Nat.min (List.length arguments) 3) s
  = (Ok district_id, s, searches) ->
  resolve arguments s =
  (outcome (check_osm arguments district_id s), s,
   (searches ++ events (check_osm arguments district_id s))%list).
Proof.
  intros Hloop. unfold resolve. erewrite bind_ok by exact Hloop.
  destruct (check_osm_total arguments district_id s) as (r & tr & ->).
  reflexivity.
Qed.

(** C3: resolving a mention starts with the loop over the district
    index, at window size [min(len(arguments), 3)], and searches the
    first [i] tokens joined by spaces for every size [i] on its way
    down.  At the largest size whose search yields one or two
    candidates the loop takes the id of the first candidate and the
    index is searched no more; sizes whose search yields none or more
    than two are passed over, and when all are, the loop ends with no
    district after the search at size 1.  What the loop found is what
    the check of the location service starts from; an id other than 0
    is the result. *)
Theorem resolve_takes_largest_accepted_window
        (arguments : list string) (s : list Z) :
  let n := Nat.min (List.length arguments) 3 in
  let run := resolve arguments s in
  let searched k :=
    map (fun j => SearchDistrictByName
                    (strip (join " " (firstn j arguments))))
        (down_from_to n k) in
  (forall j,
      accepts arguments j = true <->
      let hits := search_district_by_name (window arguments j) in
      List.length hits = 1 \/ List.length hits = 2)
  /\ (forall k,
         1 <= k <= n ->
         accepts arguments k = true ->
         (forall j, k < j <= n -> accepts arguments j = false) ->
         exists id name rest,
           search_district_by_name (window arguments k) = (id, name) :: rest
           /\ filter is_search (events run) = searched k
           /\ run =
              (outcome (check_osm arguments (Some id) s), s,
               (searched k
                ++ events (check_osm arguments (Some id) s))%list)
           /\ (id <> 0%Z -> run = (Ok (Some id), s, searched k)))
  /\ ((forall j, 1 <= j <= n -> accepts arguments j = false) ->
      filter is_search (events run) = searched 1
      /\ run =
         (outcome (check_osm arguments None s), s,
          (searched 1 ++ events (check_osm arguments None s))%list)).
Proof.
  cbv zeta. split; [| split].
  - intros j. unfold accepts. cbv zeta.
    rewrite andb_true_iff, !Nat.leb_le. lia.
  - intros k Hk Hacc Hrej.
    pose proof (search_windows_accepted arguments s Hk Hacc Hrej) as Hloop.
    unfold accepts in Hacc. cbv zeta in Hacc.
    destruct (search_district_by_name (window arguments k))
      as [| [id name] rest]; [discriminate |].
    cbn [hd_error option_map fst] in Hloop.
    exists id, name, rest. split; [reflexivity |].
    rewrite (resolve_after_windows arguments Hloop).
    fold (window arguments).
    unfold events at 1. cbn [snd].
    rewrite filter_app, check_osm_has_no_search, app_nil_r.
    split; [apply searches_are_searches |]. split; [reflexivity |].
    intros Hid. unfold check_osm. cbn [truthy].
    apply Z.eqb_neq in Hid. rewrite Hid. cbn. now rewrite app_nil_r.
  - intros Hrej.
    pose proof (search_windows_rejected arguments s Hrej) as Hloop.
    rewrite (resolve_after_windows arguments Hloop).
    unfold events at 1. cbn [snd].
    rewrite filter_app, check_osm_has_no_search, app_nil_r.
    split; [apply searches_are_searches | reflexivity].
Qed.
End Resolver.

(** ** The mention handler on a small index *)

Section ResolverExamples.
Import Py Py.Notations SingleCommandInterface.
Local Open Scope string_scope.
Local Open Scope nat_scope.

Lemma resolve_takes_largest_accepted_window_witness :
  let arguments := ["Frankfurt"; "am"; "Main"] in
  1 <= 1 <= 3
  /\ accepts arguments 1 = true
  /\ (forall j, 1 < j <= 3 -> accepts arguments j = false)
  /\ exists id name rest,
      search_district_by_name (window arguments 1) = (id, name) :: rest
      /\ filter is_search (events (resolve arguments [])) =
         [SearchDistrictByName "Frankfurt am Main";
          SearchDistrictByName "Frankfurt am";
          SearchDistrictByName "Frankfurt"]
      /\ (id <> 0%Z ->
          resolve arguments [] =
          (Ok (Some id), [],
           [SearchDistrictByName "Frankfurt am Main";
            SearchDistrictByName "Frankfurt am";
            SearchDistrictByName "Frankfurt"])).
Proof.
  cbv zeta.
  assert (1 <= 1 <= 3) as Hk by lia.
  assert (accepts ["Frankfurt"; "am"; "Main"] 1 = true) as Hacc
      by reflexivity.
  assert (forall j, 1 < j <= 3 ->
                    accepts ["Frankfurt"; "am"; "Main"] j = false) as Hrej.
  { intros j Hj. assert (j = 2 \/ j = 3) as [-> | ->] by lia; reflexivity. }
  repeat (split; [assumption |]).
  destruct (@resolve_takes_largest_accepted_window
              example_services ["Frankfurt"; "am"; "Main"] [])
    as (_ & Hfirst & _).
  destruct (Hfirst 1 Hk Hacc Hrej)
    as (id & name & rest & Hhit & Hsearched & _ & Hresult).
  exists id, name, rest.
  split; [exact Hhit |]. split; [exact Hsearched | exact Hresult].
Defined.

Lemma resolve_falls_back_to_location_service_witness :
  (forall j, 1 <= j <= 1 -> accepts ["Neustadt"] j = false)
  /\ 1 < List.length (find_location "Neustadt" false)
  /\ List.length (find_location "Neustadt" true) = 1
  /\ outcome (resolve ["Neustadt"] []) = Ok (Some 7316%Z)
  /\ filter is_find_location (events (resolve ["Neustadt"] [])) =
     [FindLocation "Neustadt" false; FindLocation "Neustadt" true].
Proof.
  assert (forall j, 1 <= j <= 1 -> accepts ["Neustadt"] j = false) as Hrej.
  { intros j Hj. assert (j = 1) as -> by lia. reflexivity. }
  assert (1 < List.length (find_location "Neustadt" false)) as Hmany
      by (vm_compute; lia).
  assert (List.length (find_location "Neustadt" true) = 1) as Hone
      by reflexivity.
  repeat (split; [assumption |]).
  destruct (@resolve_falls_back_to_location_service
              example_services ["Neustadt"] [] Hrej)
    as (_ & _ & Hmore).
  destruct (Hmore Hmany) as (Hlookups & Hhit & _).
  split; [exact (Hhit Hone) | exact Hlookups].
Defined.

Lemma chatty_mention_is_discarded_witness :
  let message := "Na, wie geht es dir?" in
  hd_error (tokenize message) = Some "Na"
  /\ String.length "Na" < 4
  /\ 3 < List.length (tokenize message)
  /\ events (mention_body false (5%Z, message, Some "@user") []) =
     [RecvMessageCountInc;
      LogWarning ["Na"; "wie"; "geht"; "es"; "dir"];
      SetMessageAnswered 5; DiscardedMessageCountInc].
Proof.
  cbv zeta.
  assert (hd_error (tokenize "Na, wie geht es dir?") = Some "Na") as Hfirst
      by reflexivity.
  assert (String.length "Na" < 4) as Hshort by (vm_compute; lia).
  assert (3 < List.length (tokenize "Na, wie geht es dir?")) as Hmany
      by (vm_compute; lia).
  repeat (split; [assumption |]).
  destruct (@chatty_mention_is_discarded
              example_services false 5%Z "Na, wie geht es dir?"
              (Some "@user") "Na" [] Hfirst Hshort Hmany)
    as (_ & _ & _ & _ & _ & Hevents).
  exact (Hevents eq_refl).
Defined.

End ResolverExamples.

(** * Tokens *)

Section Tokens.
Import Py Py.Notations SingleCommandInterface.
Local Open Scope string_scope.

Lemma split_String (c : ascii) (s : string) :
  split (String c s) =
  if isspace c then split s
  else if starts_with_space s then String c EmptyString :: split s
       else match split s with
            | t :: ts => String c t :: ts
            | [] => [String c EmptyString]
            end.
Proof.
  cbn [split]. destruct (isspace c); [reflexivity |].
  destruct s as [| c' s']; reflexivity.
Qed.

Lemma split_blank (s : string) :
  all_chars isspace s = true -> split s = [].
Proof.
  induction s as [| c s IH]; [reflexivity |].
  cbn [all_chars]. rewrite andb_true_iff. intros [Hc Hs].
  rewrite split_String, Hc. auto.
Qed.

Lemma split_nil (s : string) :
  split s = [] -> all_chars isspace s = true.
Proof.
  induction s as [| c s IH]; [reflexivity |].
  rewrite split_String. cbn [all_chars].
  destruct (isspace c); [exact IH |].
  destruct (starts_with_space s); [discriminate |].
  destruct (split s); discriminate.
Qed.

Lemma split_lstrip (s : string) : split (lstrip s) = split s.
Proof.
  induction s as [| c s IH]; [reflexivity |].
  cbn [lstrip]. destruct (isspace c) eqn:Hc; [| reflexivity].
  now rewrite IH, split_String, Hc.
Qed.

Lemma rstrip_blank (s : string) :
  rstrip s = EmptyString -> all_chars isspace s = true.
Proof.
  induction s as [| c s IH]; [reflexivity |].
  cbn [rstrip all_chars].
  destruct (rstrip s) as [| c' r]; [| discriminate].
  destruct (isspace c); [auto | discriminate].
Qed.

Lemma rstrip_starts (s : string) :
  rstrip s <> EmptyString -> starts_with_space (rstrip s) = starts_with_space s.
Proof.
  destruct s as [| c s]; [reflexivity |].
  cbn [rstrip]. destruct (rstrip s) as [| c' r].
  - destruct (isspace c) eqn:Hc; [congruence |]. intros _. cbn. reflexivity.
  - reflexivity.
Qed.

Lemma split_rstrip (s : string) : split (rstrip s) = split s.
Proof.
  induction s as [| c s IH]; [reflexivity |].
  cbn [rstrip].
  pose proof (rstrip_blank s) as Hblank.
  pose proof (rstrip_starts s) as Hstarts.
  remember (rstrip s) as rs eqn:Hr.
  destruct rs as [| c' r].
  - rewrite (split_String c s), (split_blank s (Hblank eq_refl)).
    destruct (isspace c) eqn:Hc; [reflexivity |].
    rewrite split_String, Hc. cbn.
    destruct (starts_with_space s); reflexivity.
  - rewrite (split_String c s), (split_String c (String c' r)).
    rewrite IH, Hstarts by discriminate.
    reflexivity.
Qed.

Lemma split_strip (s : string) : split (strip s) = split s.
Proof. unfold strip. now rewrite split_rstrip, split_lstrip. Qed.

(** The tokens of a string whose characters are whitespace or satisfy
    [q] are not empty and made of characters that are not whitespace and
    satisfy [q]. *)
Lemma split_tokens (q : ascii -> bool) (s : string) :
  all_chars (fun c => isspace c || q c) s = true ->
  Forall (fun t => t <> EmptyString
                   /\ all_chars (fun c => negb (isspace c) && q c) t = true)
         (split s).
Proof.
  induction s as [| c s IH]; [constructor |].
  cbn [all_chars]. rewrite andb_true_iff. intros [Hc Hs].
  specialize (IH Hs). rewrite split_String.
  destruct (isspace c) eqn:Hsp; [exact IH |].
  cbn in Hc.
  assert (String c EmptyString <> EmptyString
          /\ all_chars (fun c => negb (isspace c) && q c)
                       (String c EmptyString) = true) as Hone.
  { split; [discriminate |]. cbn. now rewrite Hsp, Hc. }
  destruct (starts_with_space s); [now constructor |].
  destruct (split s) as [| t ts]; [now constructor; [| constructor] |].
  inversion IH as [| ? ? [_ Ht] Hts]; subst.
  constructor; [| exact Hts].
  split; [discriminate |]. cbn. now rewrite Hsp, Hc, Ht.
Qed.

Lemma all_chars_and (p q : ascii -> bool) (s : string) :
  all_chars p s = true -> all_chars q s = true ->
  all_chars (fun c => p c && q c) s = true.
Proof.
  induction s as [| c s IH]; [reflexivity |].
  cbn. rewrite !andb_true_iff. intros [Hp Hps] [Hq Hqs]. auto.
Qed.

Lemma all_chars_weaken (p q : ascii -> bool) (s : string) :
  (forall c, p c = true -> q c = true) ->
  all_chars p s = true -> all_chars q s = true.
Proof.
  intros Hpq. induction s as [| c s IH]; [reflexivity |].
  cbn. rewrite !andb_true_iff. intros [Hc Hs]. auto.
Qed.

Lemma replace_removes (old : ascii) (s : string) :
  all_chars (fun c => negb (Ascii.eqb c old)) (replace old s) = true.
Proof.
  induction s as [| c s IH]; [reflexivity |].
  cbn [replace]. destruct (Ascii.eqb c old) eqn:Hc; [exact IH |].
  cbn. now rewrite Hc, IH.
Qed.

Lemma replace_keeps (q : ascii -> bool) (old : ascii) (s : string) :
  all_chars q s = true -> all_chars q (replace old s) = true.
Proof.
  induction s as [| c s IH]; [reflexivity |].
  cbn [all_chars replace]. rewrite andb_true_iff. intros [Hc Hs].
  destruct (Ascii.eqb c old); [auto |]. cbn. now rewrite Hc, IH.
Qed.

Lemma replace_only (p : ascii -> bool) (old : ascii) (s : string) :
  all_chars p (replace old s) = true ->
  all_chars (fun c => p c || Ascii.eqb c old) s = true.
Proof.
  induction s as [| c s IH]; [reflexivity |].
  cbn [all_chars replace]. destruct (Ascii.eqb c old) eqn:Hc.
  - intros Hs. rewrite orb_true_r. cbn. auto.
  - cbn [all_chars]. rewrite andb_true_iff. intros [Hpc Hs].
    rewrite Hpc. cbn. auto.
Qed.

Lemma lstrip_keeps (q : ascii -> bool) (s : string) :
  all_chars q s = true -> all_chars q (lstrip s) = true.
Proof.
  induction s as [| c s IH]; [reflexivity |].
  cbn [lstrip]. destruct (isspace c); [| auto].
  cbn [all_chars]. rewrite andb_true_iff. intros [_ Hs]. auto.
Qed.

Lemma rstrip_keeps (q : ascii -> bool) (s : string) :
  all_chars q s = true -> all_chars q (rstrip s) = true.
Proof.
  induction s as [| c s IH]; [reflexivity |].
  cbn [all_chars rstrip]. rewrite andb_true_iff. intros [Hc Hs].
  specialize (IH Hs).
  destruct (rstrip s) as [| c' r].
  - destruct (isspace c); [reflexivity |]. cbn. now rewrite Hc.
  - cbn [all_chars] in *. now rewrite Hc, IH.
Qed.

(** The text that [run] splits has none of the four characters. *)
Lemma replaced_has_no_punctuation (message : string) :
  all_chars (fun c => negb (is_punctuation c))
            (replace "?" (replace "!" (replace "." (replace "," message))))
  = true.
Proof.
  set (r := replace "?" (replace "!" (replace "." (replace "," message)))).
  assert (all_chars (fun c => negb (Ascii.eqb c ",")) r = true) as H1
      by (do 3 apply replace_keeps; apply replace_removes).
  assert (all_chars (fun c => negb (Ascii.eqb c ".")) r = true) as H2
      by (do 2 apply replace_keeps; apply replace_removes).
  assert (all_chars (fun c => negb (Ascii.eqb c "!")) r = true) as H3
      by (apply replace_keeps; apply replace_removes).
  assert (all_chars (fun c => negb (Ascii.eqb c "?")) r = true) as H4
      by apply replace_removes.
  pose proof (all_chars_and _ _ _ (all_chars_and _ _ _ H1 H2)
                            (all_chars_and _ _ _ H3 H4)) as Hall.
  revert Hall. apply all_chars_weaken. intros c. unfold is_punctuation.
  destruct (Ascii.eqb c ","), (Ascii.eqb c "."), (Ascii.eqb c "!"),
    (Ascii.eqb c "?"); cbn; auto.
Qed.

Lemma tokens_of_tokenize (message : string) :
  Forall (fun t => t <> EmptyString /\ all_chars token_char t = true)
         (tokenize message).
Proof.
  unfold tokenize.
  apply (split_tokens (fun c => negb (is_punctuation c))).
  unfold strip. apply rstrip_keeps, lstrip_keeps.
  generalize (replaced_has_no_punctuation message).
  apply all_chars_weaken. intros c ->. apply orb_true_r.
Qed.

Lemma append_empty (t : string) : t ++ EmptyString = t.
Proof. induction t as [| c t IH]; [reflexivity |]. cbn. now rewrite IH. Qed.

Lemma split_token_append (t : string) :
  t <> EmptyString ->
  all_chars (fun c => negb (isspace c)) t = true ->
  forall r, starts_with_space r = true -> split (t ++ r) = t :: split r.
Proof.
  induction t as [| c t IH]; [congruence |].
  intros _. cbn [all_chars]. rewrite andb_true_iff, negb_true_iff.
  intros [Hc Ht] r Hr. cbn [append]. rewrite split_String, Hc.
  destruct t as [| c' t'].
  - cbn [append]. now rewrite Hr.
  - assert (starts_with_space (String c' t' ++ r) = false) as ->.
    { cbn in *. rewrite andb_true_iff, negb_true_iff in Ht. tauto. }
    rewrite IH by (auto; discriminate). reflexivity.
Qed.

(** Splitting what was joined by single spaces gives the tokens back. *)
Lemma split_join (tokens : list string) :
  Forall (fun t => t <> EmptyString
                   /\ all_chars (fun c => negb (isspace c)) t = true) tokens ->
  split (join " " tokens) = tokens.
Proof.
  induction 1 as [| t ts [Hne Ht] Hts IH]; [reflexivity |].
  cbn [join]. destruct ts as [| t' ts'].
  - rewrite <- (append_empty t) at 1.
    now rewrite split_token_append.
  - rewrite split_token_append by auto.
    change (" " ++ join " " (t' :: ts'))
      with (String " " (join " " (t' :: ts'))).
    rewrite split_String. cbn [isspace]. now rewrite IH.
Qed.

Lemma token_char_not_space (t : string) :
  all_chars token_char t = true ->
  all_chars (fun c => negb (isspace c)) t = true.
Proof.
  apply all_chars_weaken. intros c. unfold token_char.
  now rewrite andb_true_iff.
Qed.

Lemma Forall_first {A : Type} (P : A -> Prop) (i : nat) (l : list A) :
  Forall P l -> Forall P (firstn i l).
Proof.
  intros Hl. revert i. induction Hl as [| x l Hx Hl IH]; intros [| i];
    cbn; constructor; auto.
Qed.

(** X1.  The tokens of a mention are not empty and contain no whitespace
    and none of the characters [,.!?]; the call of [strip] before
    [split] changes nothing. *)
Theorem tokenize_gives_clean_tokens (message : string) :
  Forall (fun t => t <> EmptyString /\ all_chars token_char t = true)
         (tokenize message)
  /\ tokenize message =
     split (replace "?" (replace "!" (replace "." (replace "," message)))).
Proof.
  split; [apply tokens_of_tokenize |].
  unfold tokenize. apply split_strip.
Qed.

Lemma rstrip_token (t : string) :
  t <> EmptyString ->
  all_chars (fun c => negb (isspace c)) t = true ->
  rstrip t = t.
Proof.
  induction t as [| c t IH]; [congruence |].
  intros _. cbn [all_chars rstrip]. rewrite andb_true_iff, negb_true_iff.
  intros [Hc Ht]. destruct t as [| c' t'].
  - cbn. now rewrite Hc.
  - rewrite IH by (auto; discriminate). reflexivity.
Qed.

Lemma rstrip_before_token (s t : string) :
  t <> EmptyString ->
  all_chars (fun c => negb (isspace c)) t = true ->
  rstrip (s ++ t) = s ++ t.
Proof.
  intros Hne Ht. induction s as [| c s IH]; [now apply rstrip_token |].
  cbn [append rstrip]. rewrite IH.
  destruct (s ++ t) eqn:E; [| reflexivity].
  destruct s; cbn in E; [congruence | discriminate].
Qed.

Lemma append_associative (a b c : string) : (a ++ b) ++ c = a ++ b ++ c.
Proof. induction a as [| x a IH]; [reflexivity |]. cbn. now rewrite IH. Qed.

Lemma join_ends_with_token (t : string) (ts : list string) :
  Forall (fun t => t <> EmptyString
                   /\ all_chars (fun c => negb (isspace c)) t = true)
         (t :: ts) ->
  exists s t',
    join " " (t :: ts) = s ++ t'
    /\ t' <> EmptyString
    /\ all_chars (fun c => negb (isspace c)) t' = true.
Proof.
  revert t. induction ts as [| t2 ts IH]; intros t Hall.
  - inversion Hall as [| ? ? [Hne Ht] _]; subst.
    exists EmptyString, t. auto.
  - inversion Hall as [| ? ? _ Hrest]; subst.
    destruct (IH t2 Hrest) as (s & t' & Hjoin & Hne & Ht').
    exists (t ++ " " ++ s), t'. split; [| auto].
    change (join " " (t :: t2 :: ts)) with (t ++ " " ++ join " " (t2 :: ts)).
    rewrite Hjoin. now rewrite !append_associative.
Qed.

(** Tokens joined by single spaces have nothing to strip. *)
Lemma strip_join (tokens : list string) :
  Forall (fun t => t <> EmptyString
                   /\ all_chars (fun c => negb (isspace c)) t = true) tokens ->
  strip (join " " tokens) = join " " tokens.
Proof.
  intros Hall. destruct tokens as [| t ts]; [reflexivity |].
  unfold strip.
  assert (lstrip (join " " (t :: ts)) = join " " (t :: ts)) as ->.
  { inversion Hall as [| ? ? [Hne Ht] _]; subst.
    destruct t as [| c t]; [congruence |].
    cbn [all_chars] in Ht. apply andb_true_iff in Ht as [Hc _].
    apply negb_true_iff in Hc.
    destruct ts; cbn [join append lstrip]; now rewrite Hc. }
  destruct (join_ends_with_token Hall) as (s & t' & -> & Hne & Ht').
  now apply rstrip_before_token.
Qed.

(** X2.  The text searched at window size [i] is the first [i] tokens
    joined by single spaces: it needs no stripping, and splitting it
    gives those tokens back. *)
Theorem window_is_first_tokens (message : string) (i : nat) :
  let first := firstn i (tokenize message) in
  window (tokenize message) i = join " " first
  /\ split (window (tokenize message) i) = first.
Proof.
  cbv zeta.
  assert (Forall (fun t => t <> EmptyString
                           /\ all_chars (fun c => negb (isspace c)) t = true)
                 (firstn i (tokenize message))) as Hall.
  { apply Forall_first.
    generalize (tokens_of_tokenize message).
    apply Forall_impl. intros t [Hne Ht].
    split; [exact Hne | now apply token_char_not_space]. }
  unfold window. rewrite (strip_join Hall).
  split; [reflexivity | now apply split_join].
Qed.

(** A text has no token exactly when it is blank. *)
Lemma tokenize_nil_iff (message : string) :
  tokenize message = [] <-> blank message = true.
Proof.
  split.
  - unfold tokenize. rewrite split_strip. intros Hnil.
    apply split_nil in Hnil. do 4 apply replace_only in Hnil.
    revert Hnil. unfold blank. apply all_chars_weaken. intros c.
    unfold is_punctuation.
    destruct (isspace c), (Ascii.eqb c ","), (Ascii.eqb c "."),
      (Ascii.eqb c "!"), (Ascii.eqb c "?"); cbn; auto.
  - intros Hblank. unfold tokenize, strip.
    rewrite split_rstrip, split_lstrip. apply split_blank.
    do 4 apply replace_all_chars.
    revert Hblank. unfold blank. apply all_chars_weaken. intros c.
    unfold is_punctuation.
    destruct (isspace c), (Ascii.eqb c ","), (Ascii.eqb c "."),
      (Ascii.eqb c "!"), (Ascii.eqb c "?"); cbn; auto.
Qed.
End Tokens.

(** * The loop over the mentions *)

Section MentionLoop.
Import Py Py.Notations SingleCommandInterface.
Local Open Scope string_scope.
Local Open Scope nat_scope.

Context `{Services}.

Lemma for_fold_events {St Ev A Acc : Type} (P : Ev -> Prop)
      (body : Acc -> A -> Py.M St Ev Acc) (xs : list A) :
  (forall acc x s, Forall P (events (body acc x s))) ->
  forall acc s, Forall P (events (for_fold body acc xs s)).
Proof.
  intros Hbody. induction xs as [| x xs IH]; intros acc s; [constructor |].
  cbn [for_fold]. unfold bind.
  specialize (Hbody acc x s).
  destruct (body acc x s) as [[[acc' | e] s1] t1]; [| exact Hbody].
  specialize (IH acc' s1).
  destruct (for_fold body acc' xs s1) as [[r s2] t2].
  unfold events in *. cbn [snd] in *. apply Forall_app. auto.
Qed.

Lemma mention_body_answered (no_write : bool) (chat_id : Z)
      (message : string) (username : option string) (s : list Z) :
  existsb (Z.eqb chat_id) s = true ->
  mention_body no_write (chat_id, message, username) s = (Ok tt, s, []).
Proof.
  intros Hans. unfold mention_body.
  cbv beta iota delta [bind is_message_answered get ret].
  now rewrite Hans.
Qed.

Lemma mention_body_blank (no_write : bool) (chat_id : Z)
      (message : string) (username : option string) (s : list Z) :
  existsb (Z.eqb chat_id) s = false ->
  tokenize message = [] ->
  mention_body no_write (chat_id, message, username) s =
  (Raise IndexError, s, [RecvMessageCountInc]).
Proof.
  intros Hans Htok. unfold mention_body.
  cbv beta iota delta [bind is_message_answered get ret].
  now rewrite Hans, Htok.
Qed.

Lemma resolve_run (arguments : list string) (s : list Z) :
  exists r1 tr1 r2 tr2,
    search_windows arguments (Nat.min (List.length arguments) 3) s
    = (Ok r1, s, tr1)
    /\ check_osm arguments r1 s = (Ok r2, s, tr2)
    /\ resolve arguments s = (Ok r2, s, tr1 ++ tr2)%list.
Proof.
  destruct (search_windows_total arguments s
              (Nat.min (List.length arguments) 3))
    as (r1 & tr1 & Hrun & _).
  destruct (check_osm_total arguments r1 s) as (r2 & tr2 & Hosm).
  exists r1, tr1, r2, tr2. repeat split; auto.
  unfold resolve. erewrite bind_ok by exact Hrun. now rewrite Hosm.
Qed.

(** A mention that is not answered and has a token: it is discarded, or
    resolved and maybe replied to, and marked answered in both cases. *)
Lemma mention_body_handled (no_write : bool) (chat_id : Z)
      (message : string) (username : option string) (s : list Z) :
  existsb (Z.eqb chat_id) s = false ->
  tokenize message <> [] ->
  let arguments := tokenize message in
  exists r tr,
    resolve arguments s = (Ok r, s, tr)
    /\ mention_body no_write (chat_id, message, username) s =
       (Ok tt, chat_id :: s,
        RecvMessageCountInc
        :: (if discards arguments then
              [LogWarning arguments; SetMessageAnswered chat_id;
               DiscardedMessageCountInc]
            else
              tr
              ++ events (answer_tweet no_write chat_id arguments username r s)
              ++ [SetMessageAnswered chat_id]))%list.
Proof.
  intros Hans Htok. cbv zeta.
  destruct (resolve_run (tokenize message) s)
    as (r1 & tr1 & r & tr2 & _ & _ & Hres).
  exists r, (tr1 ++ tr2)%list. split; [exact Hres |].
  unfold mention_body.
  cbv beta iota delta [bind is_message_answered get ret].
  rewrite Hans.
  cbv beta iota zeta delta [bind emit ret getitem].
  destruct (tokenize message) as [| tok rest] eqn:Etok; [congruence |].
  cbn [nth_error discards]. cbv beta iota delta [ret].
  destruct ((String.length tok <? 4) && (3 <? List.length (tok :: rest))).
  - reflexivity.
  - rewrite Hres.
    destruct (answer_tweet_total no_write chat_id (tok :: rest) username r s)
      as (tr' & ->).
    unfold events. cbn [snd].
    cbv beta iota delta [set_message_answered bind get put emit].
    cbn [app]. reflexivity.
Qed.

(** X3.  Handling a mention raises IndexError exactly when the mention
    is not answered yet and its text is blank; it raises nothing else,
    and after the exception the mention is still not answered. *)
Theorem mention_raises_exactly_when_blank
        (no_write : bool) (chat_id : Z) (message : string)
        (username : option string) (s : list Z) :
  let run := mention_body no_write (chat_id, message, username) s in
  (outcome run = Raise IndexError <->
   existsb (Z.eqb chat_id) s = false /\ blank message = true)
  /\ (outcome run = Ok tt \/ outcome run = Raise IndexError)
  /\ (outcome run = Raise IndexError ->
      existsb (Z.eqb chat_id) (final run) = false).
Proof.
  cbv zeta.
  destruct (existsb (Z.eqb chat_id) s) eqn:Hans.
  - rewrite mention_body_answered by exact Hans. cbn.
    repeat split; try discriminate; auto. intros [? _]. discriminate.
  - destruct (blank message) eqn:Hblank.
    + rewrite mention_body_blank
        by (auto; now apply tokenize_nil_iff).
      cbn. repeat split; auto.
    + assert (tokenize message <> []) as Htok.
      { intros Hnil. apply tokenize_nil_iff in Hnil. congruence. }
      destruct (mention_body_handled no_write chat_id message username s
                                     Hans Htok) as (r & tr & _ & ->).
      cbn. repeat split; try discriminate; auto. intros [_ ?]. discriminate.
Qed.

(** X4.  A mention that was handled without an exception is answered,
    and handling it again does nothing at all. *)
Theorem mention_is_handled_once
        (no_write : bool) (mention : Z * string * option string)
        (s : list Z) :
  let run := mention_body no_write mention s in
  outcome run = Ok tt ->
  answered_in (final run) mention = true
  /\ mention_body no_write mention (final run) = (Ok tt, final run, []).
Proof.
  destruct mention as [[chat_id message] username]. cbv zeta.
  unfold answered_in. cbn [fst].
  intros Hok.
  assert (existsb (Z.eqb chat_id)
            (final (mention_body no_write (chat_id, message, username) s))
          = true) as Hans'.
  { destruct (existsb (Z.eqb chat_id) s) eqn:Hans.
    - rewrite mention_body_answered by exact Hans. exact Hans.
    - destruct (tokenize message) as [| tok rest] eqn:Htok.
      + rewrite mention_body_blank in Hok by auto. discriminate.
      + assert (tokenize message <> []) as Hne by congruence.
        destruct (mention_body_handled no_write chat_id message username s
                                       Hans Hne) as (r & tr & _ & ->).
        cbn. now rewrite Z.eqb_refl. }
  split; [exact Hans' |].
  now apply mention_body_answered.
Qed.

Lemma for_fold_app {St Ev A Acc : Type} (body : Acc -> A -> Py.M St Ev Acc)
      (xs ys : list A) :
  forall acc s,
    for_fold body acc (xs ++ ys) s =
    bind (for_fold body acc xs) (fun acc' => for_fold body acc' ys) s.
Proof.
  induction xs as [| x xs IH]; intros acc s.
  - cbn. unfold bind, ret.
    destruct (for_fold body acc ys s) as [[r s'] tr]. reflexivity.
  - cbn [app for_fold]. unfold bind in *.
    destruct (body acc x s) as [[[acc' | e] s1] t1]; [| reflexivity].
    rewrite IH.
    destruct (for_fold body acc' xs s1) as [[[acc2 | e] s2] t2];
      [| reflexivity].
    destruct (for_fold body acc2 ys s2) as [[r s3] t3].
    now rewrite app_assoc.
Qed.

(** The loop over mentions none of which is blank. *)
Lemma mention_loop (no_write : bool)
      (mentions : list (Z * string * option string)) :
  Forall (fun m => blank (snd (fst m)) = false) mentions ->
  forall s, exists s' tr,
    for_fold (fun _ m => mention_body no_write m) tt mentions s
    = (Ok tt, s', tr)
    /\ (forall c, existsb (Z.eqb c) s = true -> existsb (Z.eqb c) s' = true)
    /\ (forall c, existsb (Z.eqb c) s' = true ->
                  existsb (Z.eqb c) s = true
                  \/ In c (map (fun m => fst (fst m)) mentions))
    /\ Forall (fun m => answered_in s' m = true) mentions.
Proof.
  induction 1 as [| [[chat_id message] username] rest Hm Hrest IH]; intros s.
  - exists s, []. repeat split; auto.
  - cbn [fst snd] in Hm. cbn [for_fold]. unfold bind.
    assert (exists s1 t1,
               mention_body no_write (chat_id, message, username) s
               = (Ok tt, s1, t1)
               /\ existsb (Z.eqb chat_id) s1 = true
               /\ (forall c, existsb (Z.eqb c) s = true ->
                             existsb (Z.eqb c) s1 = true)
               /\ (forall c, existsb (Z.eqb c) s1 = true ->
                             existsb (Z.eqb c) s = true \/ c = chat_id))
      as (s1 & t1 & -> & Hans1 & Hmono & Hnew).
    { destruct (existsb (Z.eqb chat_id) s) eqn:Hans.
      - exists s, []. rewrite mention_body_answered by exact Hans. auto.
      - assert (tokenize message <> []) as Htok.
        { intros Hnil. apply tokenize_nil_iff in Hnil. congruence. }
        destruct (mention_body_handled no_write chat_id message username s
                                       Hans Htok) as (r & tr & _ & ->).
        eexists _, _. split; [reflexivity |]. cbn [existsb].
        rewrite Z.eqb_refl. repeat split; auto.
        + intros c ->. apply orb_true_r.
        + intros c. rewrite orb_true_iff, Z.eqb_eq. tauto. }
    destruct (IH s1) as (s' & tr & -> & Hmono' & Hnew' & Hall).
    exists s', (t1 ++ tr)%list. repeat split; auto.
    + intros c Hc. destruct (Hnew' c Hc) as [Hc1 | Hin]; [| cbn; auto].
      destruct (Hnew c Hc1); cbn; auto.
    + constructor; [| exact Hall]. unfold answered_in. cbn [fst]. auto.
Qed.

Lemma mention_loop_answered (no_write : bool)
      (mentions : list (Z * string * option string)) (s : list Z) :
  Forall (fun m => answered_in s m = true) mentions ->
  for_fold (fun _ m => mention_body no_write m) tt mentions s = (Ok tt, s, []).
Proof.
  induction 1 as [| [[chat_id message] username] rest Hm Hrest IH];
    [reflexivity |].
  cbn [for_fold]. unfold bind.
  rewrite mention_body_answered by exact Hm. now rewrite IH.
Qed.

Lemma sleep_run (secs : Z) (s : list Z) :
  sleep secs s =
  if (0 <=? secs)%Z then (Ok tt, s, [Sleep secs])
  else (Raise ValueError, s, []).
Proof. unfold sleep. destruct (0 <=? secs)%Z; reflexivity. Qed.

(** A pass whose loop over the mentions ends normally sleeps, or raises
    ValueError when [sleep_sec] is negative. *)
Lemma run_once_after_loop (no_write : bool) (sleep_sec : Z)
      (mentions : list (Z * string * option string)) (s s' : list Z)
      (tr : list event) :
  for_fold (fun _ m => mention_body no_write m) tt mentions s
  = (Ok tt, s', tr) ->
  run_once no_write sleep_sec mentions s =
  if (0 <=? sleep_sec)%Z then (Ok tt, s', (tr ++ [Sleep sleep_sec])%list)
  else (Raise ValueError, s', tr).
Proof.
  intros Hloop. unfold run_once. erewrite bind_ok by exact Hloop.
  rewrite sleep_run. destruct (0 <=? sleep_sec)%Z; cbn; [reflexivity |].
  now rewrite app_nil_r.
Qed.

(** X5.  A pass over mentions none of which is blank handles them all:
    every one of them is answered afterwards.  With a [sleep_sec] that
    is not negative the pass ends normally and a second pass over the
    same mentions only sleeps; with a negative one [time.sleep] raises
    ValueError at the end of each pass. *)
Theorem run_once_answers_every_mention
        (no_write : bool) (sleep_sec : Z)
        (mentions : list (Z * string * option string)) (s : list Z) :
  Forall (fun m => blank (snd (fst m)) = false) mentions ->
  let run := run_once no_write sleep_sec mentions s in
  Forall (fun m => answered_in (final run) m = true) mentions
  /\ ((0 <= sleep_sec)%Z ->
      outcome run = Ok tt
      /\ run_once no_write sleep_sec mentions (final run) =
         (Ok tt, final run, [Sleep sleep_sec]))
  /\ ((sleep_sec < 0)%Z ->
      outcome run = Raise ValueError
      /\ run_once no_write sleep_sec mentions (final run) =
         (Raise ValueError, final run, [])).
Proof.
  intros Hmentions. cbv zeta.
  destruct (mention_loop no_write Hmentions s)
    as (s' & tr & Hrun & _ & _ & Hall).
  pose proof (@run_once_after_loop no_write sleep_sec _ _ _ _ Hrun)
    as Hfirst.
  pose proof (@run_once_after_loop no_write sleep_sec _ _ _ _
                (@mention_loop_answered no_write mentions s' Hall))
    as Hsecond.
  destruct (Z.leb_spec 0 sleep_sec) as [Hsec | Hsec];
    rewrite Hfirst; unfold outcome, final; cbn [fst snd]; rewrite Hsecond;
    repeat split; auto; intros; lia.
Qed.

(** X6.  A blank mention that is not answered stops the pass: the
    mentions before it are handled, then IndexError leaves the loop
    before [time.sleep] is reached, the blank mention stays unanswered,
    and the next pass over the same mentions stops at it again at once.
    Without the blank mention and what follows it, the same pass would
    have gone on to the sleep. *)
Theorem blank_mention_stops_every_pass
        (no_write : bool) (sleep_sec : Z)
        (pre post : list (Z * string * option string))
        (chat_id : Z) (message : string) (username : option string)
        (s : list Z) :
  Forall (fun m => blank (snd (fst m)) = false) pre ->
  blank message = true ->
  existsb (Z.eqb chat_id) s = false ->
  ~ In chat_id (map (fun m => fst (fst m)) pre) ->
  let mentions := (pre ++ (chat_id, message, username) :: post)%list in
  exists s' tr,
    run_once no_write sleep_sec mentions s =
    (Raise IndexError, s', tr ++ [RecvMessageCountInc])%list
    /\ existsb (Z.eqb chat_id) s' = false
    /\ run_once no_write sleep_sec mentions s' =
       (Raise IndexError, s', [RecvMessageCountInc])
    /\ ((0 <= sleep_sec)%Z ->
        run_once no_write sleep_sec pre s =
        (Ok tt, s', tr ++ [Sleep sleep_sec])%list)
    /\ ((sleep_sec < 0)%Z ->
        run_once no_write sleep_sec pre s = (Raise ValueError, s', tr)).
Proof.
  intros Hpre Hblank Hans Hfresh. cbv zeta.
  destruct (mention_loop no_write Hpre s)
    as (s' & tr & Hrun & _ & Hnew & Hall).
  assert (existsb (Z.eqb chat_id) s' = false) as Hans'.
  { destruct (existsb (Z.eqb chat_id) s') eqn:E; [| reflexivity].
    destruct (Hnew chat_id E); congruence || contradiction. }
  assert (tokenize message = []) as Htok by now apply tokenize_nil_iff.
  exists s', tr.
  rewrite (@run_once_after_loop no_write sleep_sec _ _ _ _ Hrun).
  split; [| split; [exact Hans' | split; [| split]]].
  - unfold run_once. unfold bind at 1. rewrite for_fold_app.
    unfold bind at 1. rewrite Hrun. cbn [for_fold]. unfold bind at 1.
    rewrite mention_body_blank by auto. reflexivity.
  - unfold run_once. unfold bind at 1. rewrite for_fold_app.
    unfold bind at 1. rewrite mention_loop_answered by exact Hall.
    cbn [for_fold]. unfold bind at 1.
    rewrite mention_body_blank by auto. reflexivity.
  - intros Hsec. apply Z.leb_le in Hsec. now rewrite Hsec.
  - intros Hsec. apply Z.leb_gt in Hsec. now rewrite Hsec.
Qed.

Lemma search_windows_events (arguments : list string) (s : list Z) :
  forall i,
    Forall (fun e => is_search e = true)
           (events (search_windows arguments i s))
    /\ List.length (events (search_windows arguments i s)) <= i.
Proof.
  induction i as [| j [IHall IHlen]]; [cbn; auto |].
  rewrite search_windows_step. cbv zeta.
  destruct (accepts arguments (Datatypes.S j)); unfold events in *;
    cbn [snd] in *.
  - split; [repeat constructor | cbn; lia].
  - split; [constructor; auto | cbn; lia].
Qed.

Lemma check_osm_events (arguments : list string) (district_id : option Z)
      (s : list Z) :
  Forall (fun e => is_find_location e = true)
         (events (check_osm arguments district_id s))
  /\ List.length (events (check_osm arguments district_id s)) <= 2.
Proof.
  unfold check_osm.
  destruct (negb (truthy district_id)); [| cbn; auto].
  cbv beta iota delta [bind emit ret location_service_find_location].
  destruct (find_location (join " " arguments) false) as [| x [| y hits]];
    try (cbn; split; [repeat constructor | lia]).
  cbv beta iota.
  destruct (find_location (join " " arguments) true) as [| x' [| y' r]];
    cbn; split; repeat constructor.
Qed.

(** X9.  Resolving a mention never raises, leaves the state alone, and
    asks the district index at most [min(len(arguments), 3)] times and
    then the location service at most twice. *)
Theorem resolve_asks_index_then_location_service
        (arguments : list string) (s : list Z) :
  exists r searches lookups,
    resolve arguments s = (Ok r, s, (searches ++ lookups)%list)
    /\ Forall (fun e => is_search e = true) searches
    /\ Forall (fun e => is_find_location e = true) lookups
    /\ List.length searches <= Nat.min (List.length arguments) 3
    /\ List.length lookups <= 2.
Proof.
  destruct (resolve_run arguments s)
    as (r1 & tr1 & r2 & tr2 & Hwin & Hosm & Hres).
  exists r2, tr1, tr2. split; [exact Hres |].
  pose proof (search_windows_events arguments s
                (Nat.min (List.length arguments) 3)) as [Hs Hslen].
  pose proof (check_osm_events arguments r1 s) as [Hl Hllen].
  rewrite Hwin in Hs, Hslen. rewrite Hosm in Hl, Hllen.
  unfold events in *. cbn [snd] in *. auto.
Qed.

Lemma answer_tweet_events (no_write : bool) (chat_id : Z)
      (arguments : list string) (username : option string)
      (district_id : option Z) (s : list Z) :
  events (answer_tweet no_write chat_id arguments username district_id s) =
  match district_id with
  | Some id =>
      if (id =? 0)%Z then []
      else
        let response := get_infection_tweet id in
        let text := reply_prefix username ++ response.(message) in
        if no_write then [PrintArguments arguments; PrintReply chat_id text]
        else [WriteMessage text response.(images) chat_id]
  | None => []
  end.
Proof.
  unfold answer_tweet, reply_prefix.
  destruct district_id as [id |]; [| reflexivity].
  cbn [truthy]. destruct (id =? 0)%Z; [reflexivity |].
  cbn [negb]. destruct no_write; reflexivity.
Qed.

Lemma filter_none {A : Type} (f : A -> bool) (l : list A) :
  Forall (fun x => f x = false) l -> filter f l = [].
Proof.
  induction 1 as [| x l Hx Hl IH]; [reflexivity |]. cbn. now rewrite Hx.
Qed.

Lemma resolve_events (arguments : list string) (s : list Z) :
  Forall (fun e => is_search e = true \/ is_find_location e = true)
         (events (resolve arguments s)).
Proof.
  destruct (resolve_run arguments s)
    as (r1 & tr1 & r2 & tr2 & Hwin & Hosm & ->).
  pose proof (search_windows_events arguments s
                (Nat.min (List.length arguments) 3)) as [Hs _].
  pose proof (check_osm_events arguments r1 s) as [Hl _].
  rewrite Hwin in Hs. rewrite Hosm in Hl.
  unfold events in *. cbn [snd] in *.
  apply Forall_app. split; eapply Forall_impl; eauto; cbn; auto.
Qed.

(** With [no_write] nothing is tweeted, without it nothing is printed. *)
Lemma mention_body_output (no_write : bool)
      (mention : Z * string * option string) (s : list Z) :
  Forall (fun e => (if no_write then is_write e else is_print e) = false)
         (events (mention_body no_write mention s)).
Proof.
  destruct mention as [[chat_id message] username].
  destruct (existsb (Z.eqb chat_id) s) eqn:Hans.
  { rewrite mention_body_answered by exact Hans. constructor. }
  destruct (tokenize message) as [| tok rest] eqn:Htok.
  { rewrite mention_body_blank by auto.
    repeat constructor. now destruct no_write. }
  assert (tokenize message <> []) as Hne by congruence.
  destruct (mention_body_handled no_write chat_id message username s
                                 Hans Hne) as (r & tr & Hres & ->).
  unfold events at 1. cbn [snd].
  constructor; [now destruct no_write |].
  destruct (discards (tokenize message)).
  { repeat constructor; now destruct no_write. }
  rewrite answer_tweet_events.
  pose proof (resolve_events (tokenize message) s) as Hev.
  rewrite Hres in Hev. unfold events in Hev. cbn [snd] in Hev.
  apply Forall_app. split.
  - revert Hev. apply Forall_impl. intros e.
    destruct e, no_write; cbn; intuition discriminate.
  - apply Forall_app. split; [| repeat constructor; now destruct no_write].
    destruct r as [id |]; [| constructor].
    destruct (id =? 0)%Z; [constructor |].
    cbv zeta. destruct no_write; repeat constructor.
Qed.

(** X7.  A pass with [no_write] never calls [write_message], whatever
    the mentions are and even when it is cut short by an exception; a
    pass without it never prints. *)
Theorem no_write_never_tweets
        (sleep_sec : Z) (mentions : list (Z * string * option string))
        (s : list Z) :
  filter is_write (events (run_once true sleep_sec mentions s)) = []
  /\ filter is_print (events (run_once false sleep_sec mentions s)) = [].
Proof.
  assert (forall no_write : bool,
             Forall (fun e => (if no_write then is_write e else is_print e)
                              = false)
                    (events (run_once no_write sleep_sec mentions s)))
    as Hall.
  { intros no_write. unfold run_once, bind.
    pose proof (@for_fold_events
                  (list Z) event (Z * string * option string) unit
                  (fun e => (if no_write then is_write e else is_print e)
                            = false)
                  (fun _ m => mention_body no_write m) mentions
                  (fun _ m s0 => mention_body_output no_write m s0) tt s)
      as Hloop.
    destruct (for_fold (fun _ m => mention_body no_write m) tt mentions s)
      as [[[[] | e] s'] tr]; unfold events in *; cbn [snd] in *.
    - rewrite sleep_run.
      destruct (0 <=? sleep_sec)%Z; [| now rewrite app_nil_r].
      apply Forall_app. split; [exact Hloop |].
      repeat constructor. now destruct no_write.
    - exact Hloop. }
  split; apply filter_none; [apply (Hall true) | apply (Hall false)].
Qed.

(** X8.  When the district index accepts a window and the id of its
    first candidate is not 0, that id is the result and the location
    service is not asked at all. *)
Theorem index_match_skips_location_service
        (arguments : list string) (s : list Z) (k : nat)
        (id : Z) (name : string) (rest : list (Z * string)) :
  let n := Nat.min (List.length arguments) 3 in
  1 <= k <= n ->
  accepts arguments k = true ->
  (forall j, k < j <= n -> accepts arguments j = false) ->
  search_district_by_name (window arguments k) = (id, name) :: rest ->
  id <> 0%Z ->
  resolve arguments s =
  (Ok (Some id), s,
   map (fun j => SearchDistrictByName (window arguments j))
       (down_from_to n k)).
Proof.
  cbv zeta. intros Hk Hacc Hrej Hhit Hid.
  unfold resolve.
  erewrite bind_ok by apply (search_windows_accepted arguments s Hk Hacc Hrej).
  rewrite Hhit. cbn [hd_error option_map fst].
  unfold check_osm. cbn [truthy].
  apply Z.eqb_neq in Hid. rewrite Hid. cbn.
  now rewrite app_nil_r.
Qed.

Lemma resolve_has_no_reply (arguments : list string) (s : list Z)
      (f : event -> bool) :
  (forall e, is_search e = true \/ is_find_location e = true -> f e = false) ->
  filter f (events (resolve arguments s)) = [].
Proof.
  intros Hf. apply filter_none.
  generalize (resolve_events arguments s). apply Forall_impl. exact Hf.
Qed.

(** X10.  A mention that is looked up gets one reply when a district
    with an id other than 0 was found, to its own chat id and with the
    figures of that district after the user name, and no reply
    otherwise; it is marked answered in both cases. *)
Theorem looked_up_mention_gets_at_most_one_reply
        (no_write : bool) (chat_id : Z) (message : string)
        (username : option string) (s : list Z) (r : option Z) :
  existsb (Z.eqb chat_id) s = false ->
  tokenize message <> [] ->
  discards (tokenize message) = false ->
  outcome (resolve (tokenize message) s) = Ok r ->
  let run := mention_body no_write (chat_id, message, username) s in
  final run = chat_id :: s
  /\ filter is_reply (events run) =
     match r with
     | Some id =>
         if (id =? 0)%Z then []
         else
           let response := get_infection_tweet id in
           [reply_event no_write chat_id
                        (reply_prefix username ++ SingleCommandInterface.message response)
                        (SingleCommandInterface.images response)]
     | None => []
     end.
Proof.
  intros Hans Htok Hdisc Hres. cbv zeta.
  destruct (mention_body_handled no_write chat_id message username s
                                 Hans Htok) as (r' & tr & Hres' & ->).
  rewrite Hres' in Hres. unfold outcome in Hres. cbn [fst] in Hres.
  injection Hres as ->.
  rewrite Hdisc, answer_tweet_events. unfold final, events. cbn [fst snd].
  split; [reflexivity |].
  cbn [filter is_reply]. rewrite !filter_app.
  pose proof (resolve_has_no_reply (tokenize message) s is_reply) as Hnone.
  rewrite Hres' in Hnone. unfold events in Hnone. cbn [snd] in Hnone.
  rewrite Hnone by (intros [] [? | ?]; cbn in *; congruence).
  cbn [app filter is_reply].
  rewrite app_nil_r.
  destruct r as [id |]; [| reflexivity].
  destruct (id =? 0)%Z; [reflexivity |].
  cbv zeta. unfold reply_event. destruct no_write; reflexivity.
Qed.

Lemma search_windows_first_event (arguments : list string) (s : list Z)
      (j : nat) :
  hd_error (events (search_windows arguments (Datatypes.S j) s)) =
  Some (SearchDistrictByName (window arguments (Datatypes.S j))).
Proof.
  rewrite search_windows_step. cbv zeta.
  destruct (accepts arguments (Datatypes.S j)); reflexivity.
Qed.

(** X11.  A mention that is not answered and has a token is discarded
    exactly when its first token is shorter than 4 characters and it has
    more than 3 tokens; every other one is searched in the district
    index, first at the largest window. *)
Theorem mention_is_discarded_or_searched
        (no_write : bool) (chat_id : Z) (message : string)
        (username : option string) (s : list Z) :
  existsb (Z.eqb chat_id) s = false ->
  tokenize message <> [] ->
  let arguments := tokenize message in
  let run := mention_body no_write (chat_id, message, username) s in
  (In DiscardedMessageCountInc (events run) <-> discards arguments = true)
  /\ (discards arguments = false ->
      nth_error (events run) 1 =
      Some (SearchDistrictByName
              (window arguments (Nat.min (List.length arguments) 3)))).
Proof.
  intros Hans Htok. cbv zeta.
  destruct (mention_body_handled no_write chat_id message username s
                                 Hans Htok) as (r & tr & Hres & ->).
  rewrite answer_tweet_events.
  unfold events at 1 2. cbn [snd].
  destruct (discards (tokenize message)) eqn:Hdisc.
  - split; [| discriminate]. split; [reflexivity |]. intros _. cbn. auto.
  - split.
    + split; [| discriminate]. intros Hin. exfalso.
      destruct Hin as [Hin | Hin]; [discriminate |].
      rewrite !in_app_iff in Hin. destruct Hin as [Hin | [Hin | Hin]].
      * pose proof (resolve_events (tokenize message) s) as Hev.
        rewrite Hres in Hev. unfold events in Hev. cbn [snd] in Hev.
        rewrite Forall_forall in Hev. specialize (Hev _ Hin).
        cbn in Hev. intuition discriminate.
      * destruct r as [id |]; [| destruct Hin].
        destruct (id =? 0)%Z; [destruct Hin |].
        cbv zeta in Hin. destruct no_write; cbn in Hin;
          intuition discriminate.
      * cbn in Hin. intuition discriminate.
    + intros _. cbn [nth_error].
      destruct (resolve_run (tokenize message) s)
        as (r1 & tr1 & r2 & tr2 & Hwin & _ & Hres2).
      rewrite Hres2 in Hres. injection Hres as _ <-.
      destruct (tokenize message) as [| tok rest]; [congruence |].
      pose proof (search_windows_first_event (tok :: rest) s
                    (Nat.min (List.length rest) 2)) as Hfirst.
      change (Datatypes.S (Nat.min (List.length rest) 2))
        with (Nat.min (List.length (tok :: rest)) 3) in Hfirst.
      rewrite Hwin in Hfirst. unfold events in Hfirst. cbn [snd] in Hfirst.
      destruct tr1 as [| e tr1]; [discriminate |].
      exact Hfirst.
Qed.

(** X12.  The id 0, the country, is false in Python.  When the district
    index accepts a window whose first candidate has the id 0, the
    location service is asked all the same, and when it has no hit the
    mention gets no reply; it is marked answered. *)
Theorem district_zero_gets_no_reply
        (no_write : bool) (chat_id : Z) (message : string)
        (username : option string) (s : list Z) (k : nat)
        (name : string) (rest : list (Z * string)) :
  let arguments := tokenize message in
  let n := Nat.min (List.length arguments) 3 in
  existsb (Z.eqb chat_id) s = false ->
  arguments <> [] ->
  discards arguments = false ->
  1 <= k <= n ->
  accepts arguments k = true ->
  (forall j, k < j <= n -> accepts arguments j = false) ->
  search_district_by_name (window arguments k) = (0%Z, name) :: rest ->
  find_location (join " " arguments) false = [] ->
  let run := mention_body no_write (chat_id, message, username) s in
  In (FindLocation (join " " arguments) false) (events run)
  /\ filter is_reply (events run) = []
  /\ final run = chat_id :: s.
Proof.
  cbv zeta. intros Hans Htok Hdisc Hk Hacc Hrej Hhit Hnone.
  destruct (mention_body_handled no_write chat_id message username s
                                 Hans Htok) as (r & tr & Hres & ->).
  rewrite Hdisc, answer_tweet_events. unfold final, events. cbn [fst snd].
  assert (resolve (tokenize message) s =
          (Ok (Some 0%Z), s,
           map (fun j => SearchDistrictByName (window (tokenize message) j))
               (down_from_to (Nat.min (List.length (tokenize message)) 3) k)
           ++ [FindLocation (join " " (tokenize message)) false])%list)
    as Hres0.
  { unfold resolve.
    erewrite bind_ok
      by apply (search_windows_accepted (tokenize message) s Hk Hacc Hrej).
    rewrite Hhit. cbn [hd_error option_map fst].
    unfold check_osm. cbn [truthy Z.eqb negb].
    cbv beta iota delta [bind emit ret location_service_find_location].
    rewrite Hnone. reflexivity. }
  rewrite Hres0 in Hres. injection Hres as <- <-.
  split; [| split; [| reflexivity]].
  - right. rewrite !in_app_iff. left. right. cbn. auto.
  - cbn [filter is_reply]. rewrite !filter_app.
    cbn [Z.eqb app filter is_reply].
    rewrite !app_nil_r.
    apply filter_none, Forall_forall. intros e He.
    rewrite in_map_iff in He. destruct He as (j & <- & _). reflexivity.
Qed.
End MentionLoop.

(** ** The loop on a small index *)

Section MentionLoopExamples.
Import Py Py.Notations SingleCommandInterface.
Local Open Scope string_scope.
Local Open Scope nat_scope.

Lemma mention_is_handled_once_witness :
  let mention := (5%Z, "Frankfurt", Some "@user") in
  outcome (mention_body false mention []) = Ok tt
  /\ answered_in (final (mention_body false mention [])) mention = true
  /\ mention_body false mention [5%Z] = (Ok tt, [5%Z], []).
Proof.
  cbv zeta.
  assert (outcome (mention_body false (5%Z, "Frankfurt", Some "@user") [])
          = Ok tt) as Hok by reflexivity.
  split; [exact Hok |].
  exact (@mention_is_handled_once example_services false
           (5%Z, "Frankfurt", Some "@user") [] Hok).
Defined.

Lemma run_once_answers_every_mention_witness :
  let mentions :=
    [(1%Z, "Frankfurt", None); (2%Z, "Na, wie geht es dir?", Some "@user")] in
  Forall (fun m => blank (snd (fst m)) = false) mentions
  /\ (0 <= 60)%Z
  /\ outcome (run_once false 60 mentions []) = Ok tt
  /\ run_once false 60 mentions [2%Z; 1%Z] = (Ok tt, [2%Z; 1%Z], [Sleep 60])
  /\ (-1 < 0)%Z
  /\ outcome (run_once false (-1) mentions []) = Raise ValueError.
Proof.
  cbv zeta.
  assert (Forall (fun m : Z * string * option string =>
                    blank (snd (fst m)) = false)
                 [(1%Z, "Frankfurt", None);
                  (2%Z, "Na, wie geht es dir?", Some "@user")]) as Hm
      by (repeat constructor).
  assert (0 <= 60)%Z as Hsec by lia.
  assert (-1 < 0)%Z as Hneg by lia.
  split; [exact Hm |]. split; [exact Hsec |].
  destruct (@run_once_answers_every_mention example_services false 60%Z
              _ [] Hm) as (_ & Hok & _).
  destruct (Hok Hsec) as (Houtcome & Hagain).
  split; [exact Houtcome |]. split; [exact Hagain |].
  split; [exact Hneg |].
  destruct (@run_once_answers_every_mention example_services false (-1)%Z
              _ [] Hm) as (_ & _ & Hraise).
  exact (proj1 (Hraise Hneg)).
Defined.

Lemma blank_mention_stops_every_pass_witness :
  let pre := [(1%Z, "Frankfurt", None)] in
  let post := [(3%Z, "Neustadt", None)] in
  Forall (fun m => blank (snd (fst m)) = false) pre
  /\ blank " ?! " = true
  /\ existsb (Z.eqb 2) [] = false
  /\ ~ In 2%Z (map (fun m => fst (fst m)) pre)
  /\ exists s' tr,
      run_once false 60 (pre ++ (2%Z, " ?! ", None) :: post) [] =
      (Raise IndexError, s', tr ++ [RecvMessageCountInc])%list
      /\ existsb (Z.eqb 2) s' = false
      /\ run_once false 60 (pre ++ (2%Z, " ?! ", None) :: post) s' =
         (Raise IndexError, s', [RecvMessageCountInc])
      /\ ((0 <= 60)%Z ->
          run_once false 60 pre [] = (Ok tt, s', tr ++ [Sleep 60])%list)
      /\ ((60 < 0)%Z ->
          run_once false 60 pre [] = (Raise ValueError, s', tr)).
Proof.
  cbv zeta.
  assert (Forall (fun m : Z * string * option string =>
                    blank (snd (fst m)) = false)
                 [(1%Z, "Frankfurt", None)]) as Hpre
      by (repeat constructor).
  assert (blank " ?! " = true) as Hblank by reflexivity.
  assert (existsb (Z.eqb 2) [] = false) as Hans by reflexivity.
  assert (~ In 2%Z (map (fun m : Z * string * option string => fst (fst m))
                        [(1%Z, "Frankfurt", None)])) as Hfresh.
  { cbn. intros [Heq | []]. discriminate. }
  repeat (split; [assumption |]).
  exact (@blank_mention_stops_every_pass example_services false 60%Z
           [(1%Z, "Frankfurt", None)] [(3%Z, "Neustadt", None)]
           2%Z " ?! " None [] Hpre Hblank Hans Hfresh).
Defined.

Lemma index_match_skips_location_service_witness :
  let arguments := ["Frankfurt"; "am"; "Main"] in
  1 <= 1 <= 3
  /\ accepts arguments 1 = true
  /\ (forall j, 1 < j <= 3 -> accepts arguments j = false)
  /\ search_district_by_name (window arguments 1) =
     [(6412, "Frankfurt am Main"); (12053, "Frankfurt (Oder)")]%Z
  /\ 6412%Z <> 0%Z
  /\ resolve arguments [] =
     (Ok (Some 6412%Z), [],
      [SearchDistrictByName "Frankfurt am Main";
       SearchDistrictByName "Frankfurt am";
       SearchDistrictByName "Frankfurt"]).
Proof.
  cbv zeta.
  assert (1 <= 1 <= 3) as Hk by lia.
  assert (accepts ["Frankfurt"; "am"; "Main"] 1 = true) as Hacc
      by reflexivity.
  assert (forall j, 1 < j <= 3 ->
                    accepts ["Frankfurt"; "am"; "Main"] j = false) as Hrej.
  { intros j Hj. assert (j = 2 \/ j = 3) as [-> | ->] by lia; reflexivity. }
  assert (search_district_by_name (window ["Frankfurt"; "am"; "Main"] 1) =
          [(6412, "Frankfurt am Main"); (12053, "Frankfurt (Oder)")]%Z)
    as Hhit by reflexivity.
  assert (6412%Z <> 0%Z) as Hid by discriminate.
  repeat (split; [assumption |]).
  exact (@index_match_skips_location_service example_services
           ["Frankfurt"; "am"; "Main"] [] 1 6412%Z "Frankfurt am Main"
           [(12053%Z, "Frankfurt (Oder)")] Hk Hacc Hrej Hhit Hid).
Defined.

Lemma looked_up_mention_gets_at_most_one_reply_witness :
  existsb (Z.eqb 5) [] = false
  /\ tokenize "Frankfurt!" <> []
  /\ discards (tokenize "Frankfurt!") = false
  /\ outcome (resolve (tokenize "Frankfurt!") []) = Ok (Some 6412%Z)
  /\ filter is_reply
            (events (mention_body false (5%Z, "Frankfurt!", Some "@user") []))
     = [WriteMessage "@user figures" [6412%Z] 5].
Proof.
  assert (existsb (Z.eqb 5) [] = false) as Hans by reflexivity.
  assert (tokenize "Frankfurt!" <> []) as Htok by discriminate.
  assert (discards (tokenize "Frankfurt!") = false) as Hdisc by reflexivity.
  assert (outcome (resolve (tokenize "Frankfurt!") []) = Ok (Some 6412%Z))
    as Hres by reflexivity.
  repeat (split; [assumption |]).
  exact (proj2 (@looked_up_mention_gets_at_most_one_reply example_services
                  false 5%Z "Frankfurt!" (Some "@user") [] (Some 6412%Z)
                  Hans Htok Hdisc Hres)).
Defined.

Lemma mention_is_discarded_or_searched_witness :
  existsb (Z.eqb 5) [] = false
  /\ tokenize "Frankfurt am Main bitte" <> []
  /\ nth_error
       (events (mention_body false (5%Z, "Frankfurt am Main bitte", None) []))
       1
     = Some (SearchDistrictByName "Frankfurt am Main").
Proof.
  assert (existsb (Z.eqb 5) [] = false) as Hans by reflexivity.
  assert (tokenize "Frankfurt am Main bitte" <> []) as Htok by discriminate.
  repeat (split; [assumption |]).
  destruct (@mention_is_discarded_or_searched example_services false 5%Z
              "Frankfurt am Main bitte" None [] Hans Htok) as (_ & Hsearch).
  exact (Hsearch eq_refl).
Defined.

Lemma district_zero_gets_no_reply_witness :
  existsb (Z.eqb 5) [] = false
  /\ tokenize "Deutschland" <> []
  /\ accepts (H := country_services) (tokenize "Deutschland") 1 = true
  /\ filter is_reply
            (events (mention_body (H := country_services) false
                                  (5%Z, "Deutschland", Some "@user") []))
     = []
  /\ final (mention_body (H := country_services) false
                         (5%Z, "Deutschland", Some "@user") []) = [5%Z].
Proof.
  assert (existsb (Z.eqb 5) [] = false) as Hans by reflexivity.
  assert (tokenize "Deutschland" <> []) as Htok by discriminate.
  assert (accepts (H := country_services) (tokenize "Deutschland") 1 = true)
    as Hacc by reflexivity.
  repeat (split; [assumption |]).
  assert (1 <= 1 <= Nat.min (List.length (tokenize "Deutschland")) 3) as Hk
      by (vm_compute; lia).
  assert (forall j, 1 < j <= Nat.min (List.length (tokenize "Deutschland")) 3
                    -> accepts (H := country_services)
                               (tokenize "Deutschland") j = false) as Hrej.
  { intros j Hj. exfalso. vm_compute in Hj. lia. }
  destruct (@district_zero_gets_no_reply country_services false 5%Z
              "Deutschland" (Some "@user") [] 1 "Deutschland" []
              Hans Htok eq_refl Hk Hacc Hrej eq_refl eq_refl)
    as (_ & Hnone & Hfinal).
  split; [exact Hnone | exact Hfinal].
Defined.
End MentionLoopExamples.

(** * More on the dispatcher *)

Section DispatcherMore.
Import Py Py.Notations SignalInterface.
Local Open Scope Q_scope.

Context {S : Type} `{Backend S}.

Lemma attempts_app (tr1 tr2 : list event) :
  attempts (tr1 ++ tr2) = (attempts tr1 ++ attempts tr2)%list.
Proof.
  induction tr1 as [| e tr1 IH]; [reflexivity |].
  destruct e; cbn; now rewrite ?IH.
Qed.

Lemma backoff_timer_quiet (d : Q) (failed : bool) (u : string) (s : S) :
  0 <= d ->
  attempts (events (backoff_timer d failed u s)) = []
  /\ filter is_confirm (events (backoff_timer d failed u s)) = [].
Proof.
  intros Hd. rewrite (backoff_timer_run failed u s Hd).
  destruct failed; auto.
Qed.

(** One turn of the loop of [send_message]. *)
Lemma message_body_attempts (message : string) (append_report : bool)
      (d : Q) (user : string) (s : S) :
  0 <= d ->
  exists d' s' tr,
    message_body message append_report d user s = (Ok d', s', tr)
    /\ 0 <= d'
    /\ attempts tr =
       (user, adapt_text message)
       :: (if append_report
           then [(user, adapt_text
                          (SignalInterface.message
                             (reportHandler EmptyString user)))]
           else [])
    /\ filter is_confirm tr = [].
Proof.
  intros Hd. unfold message_body.
  cbv beta iota delta [bind emit ret bot_send_message].
  destruct (send s user (adapt_text message) []) as [success s1].
  cbv beta iota.
  rewrite (backoff_timer_run (negb success) user s1 Hd).
  pose proof (new_backoff_nonneg (negb success) Hd) as Hd1.
  set (d1 := new_backoff_value d (negb success)) in *.
  cbv beta iota.
  destruct append_report.
  - destruct (image (reportHandler EmptyString user));
      cbv beta iota delta [bind emit ret get_attachment_path];
      match goal with
      | |- context [send s1 user ?body ?atts] =>
          destruct (send s1 user body atts) as [success2 s2]
      end;
      rewrite (backoff_timer_run (negb success2) user s2 Hd1);
      eexists _, _, _; (split; [reflexivity |]);
      (split; [now apply new_backoff_nonneg |]);
      destruct success, success2; split; reflexivity.
  - eexists _, _, _. split; [reflexivity |]. split; [exact Hd1 |].
    destruct success; split; reflexivity.
Qed.

Lemma message_loop_attempts (message : string) (append_report : bool)
      (users : list string) :
  forall (d : Q) (s : S),
    0 <= d ->
    exists d' s' tr,
      for_fold (message_body message append_report) d users s
      = (Ok d', s', tr)
      /\ attempts tr =
         flat_map
           (fun user =>
              (user, adapt_text message)
              :: (if append_report
                  then [(user, adapt_text
                                 (SignalInterface.message
                                    (reportHandler EmptyString user)))]
                  else []))
           users
      /\ filter is_confirm tr = [].
Proof.
  induction users as [| user rest IH]; intros d s Hd.
  - exists d, s, []. auto.
  - cbn [for_fold flat_map]. unfold bind at 1.
    destruct (message_body_attempts message append_report user s Hd)
      as (d1 & s1 & tr1 & -> & Hd1 & Hatt1 & Hconf1).
    destruct (IH d1 s1 Hd1) as (d2 & s2 & tr2 & -> & Hatt2 & Hconf2).
    eexists _, _, _. split; [reflexivity |].
    rewrite attempts_app, filter_app, Hatt1, Hatt2, Hconf1, Hconf2.
    split; reflexivity.
Qed.

(** X13.  [send_message] from a delay that is not negative ends without
    an exception.  It sends the message to every user of the list, or to
    all users when the list is empty, in order; with [append_report]
    every user is sent the report right after the message, whether the
    message could be delivered or not; no delivery is ever confirmed. *)
Theorem send_message_attempts
        (message : string) (users : list string) (append_report : bool)
        (all_users : list string) (uniform : Q) (returncode : Z) (s : S) :
  0 <= uniform ->
  let recipients := match users with [] => all_users | _ :: _ => users end in
  let run :=
    send_message message users append_report all_users uniform returncode s in
  outcome run = Ok tt
  /\ attempts (events run) =
     flat_map
       (fun user =>
          (user, adapt_text message)
          :: (if append_report
              then [(user, adapt_text
                             (SignalInterface.message
                                (reportHandler EmptyString user)))]
              else []))
       recipients
  /\ filter is_confirm (events run) = [].
Proof.
  intros Hd. cbv zeta. unfold send_message.
  set (us := match users with [] => all_users | _ :: _ => users end).
  destruct (message_loop_attempts message append_report us s Hd)
    as (d' & s' & tr & Hrun & Hatt & Hconf).
  unfold bind. rewrite Hrun, restart_service_run.
  unfold outcome, events. cbn [fst snd].
  split; [reflexivity |].
  rewrite attempts_app, filter_app, Hatt, Hconf.
  destruct (returncode =? 0)%Z; cbn; rewrite app_nil_r; auto.
Qed.

Lemma daily_report_loop_sleep_count (total : nat) (g : Z)
      (reports : list (string * string)) :
  forall (d : Q) (n : nat) (s : S),
    0 <= d ->
    List.length
      (filter is_sleep
              (events (for_fold (daily_report_body total g) (d, n) reports s)))
    = List.length reports.
Proof.
  induction reports as [| [u m] rest IH]; intros d n s Hd; [reflexivity |].
  cbn [for_fold].
  erewrite bind_ok by apply (daily_report_body_run total g n u m s Hd).
  unfold events at 1. cbn [snd].
  rewrite !filter_app, !length_app, IH by now apply new_backoff_nonneg.
  destruct (fst (send s u (adapt_text m) [g])); reflexivity.
Qed.

(** X14.  A batch of [send_daily_reports] whose first delay is drawn
    from 0.5 to 2 seconds sleeps once per report, and every sleep lasts
    between 0 and 3 seconds, whatever the outcomes of the sends. *)
Theorem daily_reports_sleep_once_per_report
        (reports : list (string * string)) (uniform : Q)
        (returncode : Z) (s : S) :
  (1 # 2) <= uniform <= 2 ->
  let run := send_daily_reports reports uniform returncode s in
  sleeps_within 0 3 (events run)
  /\ List.length (filter is_sleep (events run)) = List.length reports.
Proof.
  intros Hu. cbv zeta. split.
  - apply Forall_forall. intros [] Hin; auto.
    eapply send_daily_reports_sleeps; eauto.
  - destruct reports as [| r rest] eqn:E; [reflexivity |].
    rewrite <- E.
    assert (reports <> []) as Hne by (rewrite E; discriminate).
    assert (0 <= uniform) as Hd by lra.
    destruct (send_daily_reports_run returncode s Hd Hne)
      as (tr & -> & _ & ->).
    unfold events at 1. cbn [snd].
    rewrite !filter_app, !length_app, daily_report_loop_sleep_count by auto.
    destruct (returncode =? 0)%Z; cbn; lia.
Qed.

Lemma success_decays (d : Q) :
  (1 # 2) <= d ->
  (1 # 2) <= new_backoff_value d false <= d.
Proof.
  intros Hd. unfold new_backoff_value.
  destruct (gt d 1) eqn:Hgt; [apply gt_true in Hgt | ]; split; lra.
Qed.

Lemma sleeps_within_weaken (lo hi hi' : Q) (tr : list event) :
  hi <= hi' -> sleeps_within lo hi tr -> sleeps_within lo hi' tr.
Proof.
  intros Hhi. apply Forall_impl. intros []; auto. intros [? ?]. split; lra.
Qed.

Lemma daily_report_loop_without_failure (total : nat) (g : Z)
      (reports : list (string * string)) :
  forall (d : Q) (n : nat) (s : S),
    (1 # 2) <= d ->
    forallb (fun success => success) (outcomes g s reports) = true ->
    sleeps_within (1 # 2) d
      (events (for_fold (daily_report_body total g) (d, n) reports s)).
Proof.
  induction reports as [| [u m] rest IH]; intros d n s Hd Hall;
    [constructor |].
  cbn [for_fold].
  assert (0 <= d) as Hd0 by lra.
  erewrite bind_ok by apply (daily_report_body_run total g n u m s Hd0).
  unfold events at 1. cbn [snd].
  cbn [outcomes] in Hall.
  destruct (send s u (adapt_text m) [g]) as [success s'].
  cbn [forallb fst snd] in *. apply andb_true_iff in Hall as [-> Hall].
  cbn [negb].
  pose proof (success_decays Hd) as [Hlo Hhi].
  unfold sleeps_within. rewrite !Forall_app. repeat split.
  - repeat constructor.
  - repeat constructor.
  - repeat constructor; lra.
  - apply sleeps_within_weaken with (hi := new_backoff_value d false);
      [exact Hhi |].
    now apply IH.
Qed.

(** X15.  In a batch of [send_daily_reports] in which every send
    succeeds the delay only decays: every sleep lasts at least 0.5
    seconds and at most the first delay. *)
Theorem daily_reports_without_failure_keep_the_floor
        (reports : list (string * string)) (uniform : Q)
        (returncode : Z) (s : S) :
  (1 # 2) <= uniform <= 2 ->
  forallb (fun success => success) (outcomes 0%Z s reports) = true ->
  sleeps_within (1 # 2) uniform
                (events (send_daily_reports reports uniform returncode s)).
Proof.
  intros [Hlo Hhi] Hall.
  destruct reports as [| r rest] eqn:E; [constructor |].
  rewrite <- E in *.
  assert (reports <> []) as Hne by (rewrite E; discriminate).
  assert (0 <= uniform) as Hd by lra.
  destruct (send_daily_reports_run returncode s Hd Hne)
    as (tr & -> & _ & ->).
  unfold events at 1. cbn [snd].
  unfold sleeps_within. rewrite !Forall_app. repeat split.
  - repeat constructor.
  - now apply daily_report_loop_without_failure.
  - repeat constructor.
  - destruct (returncode =? 0)%Z; repeat constructor.
Qed.

Lemma ceil_between (d : Q) (z : Z) :
  inject_Z z - 1 < d <= inject_Z z -> ceil d = z.
Proof.
  intros [Hlo Hhi]. unfold ceil.
  assert (Qceiling d <= z)%Z as Hle
      by (rewrite <- (Qceiling_Z z); now apply Qceiling_resp_le).
  assert (z - 1 < Qceiling d)%Z as Hgt.
  { rewrite Zlt_Qlt. unfold Z.sub. rewrite inject_Z_plus.
    change (inject_Z (-1)) with (-(1)).
    eapply Qlt_le_trans; [exact Hlo | apply Qle_ceiling]. }
  lia.
Qed.

(** X16.  What a failed send does to a delay of at most 3 seconds: from
    0 the new delay is 2, from above 0 up to 1 it is 3, from above 1 up
    to 2 it is 0, and from above 2 up to 3 it is 1 second; the recipient
    is disabled in every case. *)
Theorem failed_send_resets_the_delay (d : Q) (u : string) (s : S) :
  let run := backoff_timer d true u s in
  (d == 0 -> outcome run = Ok 2)
  /\ (0 < d <= 1 -> outcome run = Ok 3)
  /\ (1 < d <= 2 -> outcome run = Ok 0)
  /\ (2 < d <= 3 -> outcome run = Ok 1)
  /\ (0 <= d -> In (DisableUser u) (events run)).
Proof.
  cbv zeta.
  assert (forall z : Z,
             0 <= d ->
             inject_Z z - 1 < d <= inject_Z z ->
             outcome (backoff_timer d true u s) = Ok (inject_Z (Z.lxor 2 z)))
    as Hcase.
  { intros z Hd0 Hd.
    rewrite (backoff_timer_run true u s Hd0).
    unfold outcome, new_backoff_value. cbn [fst].
    now rewrite (ceil_between Hd). }
  repeat split.
  - intros Hd. rewrite (Hcase 0%Z); [reflexivity | lra |].
    change (inject_Z 0) with 0. split; lra.
  - intros Hd. rewrite (Hcase 1%Z); [reflexivity | lra |].
    change (inject_Z 1) with 1. split; lra.
  - intros Hd. rewrite (Hcase 2%Z); [reflexivity | lra |].
    change (inject_Z 2) with 2. split; lra.
  - intros Hd. rewrite (Hcase 3%Z); [reflexivity | lra |].
    change (inject_Z 3) with 3. split; lra.
  - intros Hd. rewrite (backoff_timer_run true u s Hd).
    unfold events. cbn. auto.
Qed.
End DispatcherMore.

(** * The daily tweets *)

Section DailyTweets.
Import Py Py.Notations SingleCommandReports.
Local Open Scope string_scope.
Local Open Scope Z_scope.

Context {U W D : Type} `{UserManager U} `{Writer W} `{CountryData D}.

Lemma uids_differ :
  String.eqb INFECTIONS_UID VACCINATIONS_UID = false
  /\ String.eqb INFECTIONS_UID ICU_UID = false
  /\ String.eqb VACCINATIONS_UID ICU_UID = false
  /\ String.eqb VACCINATIONS_UID INFECTIONS_UID = false
  /\ String.eqb ICU_UID INFECTIONS_UID = false
  /\ String.eqb ICU_UID VACCINATIONS_UID = false.
Proof. repeat split. Qed.

Ltac unfold_tweets :=
  cbv beta iota zeta delta
      [send_daily_reports bind ret emit raise user_last_update
       user_set_last_update self_write_message fst snd].

Ltac write_cases :=
  repeat match goal with
         | |- context [write_message ?w ?t ?m] =>
             let ok := fresh "ok" in
             let w' := fresh "w" in
             destruct (write_message w t m) as [ok w'] eqn:?;
             destruct ok; cbv beta iota
         end.

(** X17.  With country data, [send_daily_reports] ends normally and
    hands to [write_message] exactly the reports that are newer than
    the last update of their user, in the order infections,
    vaccinations, ICU, whether the earlier tweets could be written or
    not; with [no_write] it prints them instead and writes nothing.
    Without country data it raises ValueError before anything else. *)
Theorem daily_tweets_are_the_stale_reports
        (no_write : bool) (germany : D) (st : U * W) :
  keeps_updates U ->
  let run := send_daily_reports no_write (Some germany) st in
  outcome run = Ok tt
  /\ (if no_write then printed (events run) else written (events run))
     = stale_texts (fst st) germany
  /\ (if no_write then written (events run) else printed (events run)) = []
  /\ send_daily_reports no_write None st = (Raise ValueError, st, []).
Proof.
  intros Hkeeps. cbv zeta. destruct st as [u w]. unfold stale_texts.
  destruct uids_differ as (E1 & E2 & E3 & _).
  unfold_tweets.
  destruct (last_update_date u INFECTIONS_UID <? date germany) eqn:Ei,
           (last_update_date u VACCINATIONS_UID <? vaccinations_date germany)
             eqn:Ev,
           (last_update_date u ICU_UID <? icu_date germany) eqn:Ec,
           no_write;
    cbv beta iota; write_cases;
    rewrite ?Hkeeps, ?E1, ?E2, ?E3, ?Ev, ?Ec; cbv beta iota; write_cases;
    rewrite ?Hkeeps, ?E1, ?E2, ?E3, ?Ev, ?Ec; cbv beta iota; write_cases;
    repeat split.
Qed.

(** X18.  When every tweet is written, or with [no_write], calling
    [send_daily_reports] again with the same country data does nothing:
    no report is tweeted or printed twice. *)
Theorem daily_tweets_are_sent_once
        (no_write : bool) (germany : D) (st : U * W) :
  keeps_updates U ->
  (no_write = true \/ forall w t m, fst (write_message w t m) = true) ->
  let run := send_daily_reports no_write (Some germany) st in
  send_daily_reports no_write (Some germany) (final run)
  = (Ok tt, final run, []).
Proof.
  intros Hkeeps Hwrites. cbv zeta. destruct st as [u w].
  destruct uids_differ as (E1 & E2 & E3 & E4 & E5 & E6).
  unfold final. unfold_tweets.
  destruct (last_update_date u INFECTIONS_UID <? date germany) eqn:Ei,
           (last_update_date u VACCINATIONS_UID <? vaccinations_date germany)
             eqn:Ev,
           (last_update_date u ICU_UID <? icu_date germany) eqn:Ec,
           no_write;
    try (destruct Hwrites as [Hnw | Hw]; [discriminate |]);
    repeat progress
           (cbv beta iota;
            rewrite ?Hkeeps, ?E1, ?E2, ?E3, ?E4, ?E5, ?E6, ?String.eqb_refl,
              ?Z.ltb_irrefl, ?Ei, ?Ev, ?Ec;
            repeat match goal with
                   | |- context [write_message ?w0 ?t ?m] =>
                       let Hw0 := fresh "Hw" in
                       pose proof (Hw w0 t m) as Hw0;
                       destruct (write_message w0 t m) as [[] ?];
                       [clear Hw0 | discriminate Hw0]
                   end);
    reflexivity.
Qed.

(** With a writer that never succeeds nothing is recorded: the stale
    reports are all attempted and the user manager stays as it was. *)
Lemma failing_writer_run (germany : D) (u : U) (w : W) :
  (forall w t m, fst (write_message w t m) = false) ->
  let run := send_daily_reports false (Some germany) (u, w) in
  outcome run = Ok tt
  /\ fst (final run) = u
  /\ written (events run) = stale_texts u germany.
Proof.
  intros Hw. cbv zeta. unfold final, outcome, events, stale_texts.
  unfold_tweets.
  destruct (last_update_date u INFECTIONS_UID <? date germany) eqn:Ei,
           (last_update_date u VACCINATIONS_UID <? vaccinations_date germany)
             eqn:Ev,
           (last_update_date u ICU_UID <? icu_date germany) eqn:Ec;
    repeat progress
           (cbv beta iota;
            rewrite ?Ei, ?Ev, ?Ec;
            repeat match goal with
                   | |- context [write_message ?w0 ?t ?m] =>
                       let Hw0 := fresh "Hw" in
                       pose proof (Hw w0 t m) as Hw0;
                       destruct (write_message w0 t m) as [[] ?];
                       [discriminate Hw0 | clear Hw0]
                   end);
    repeat split.
Qed.

(** X19.  A tweet that could not be written is tried again: when
    [write_message] fails every time, the last updates stay as they
    were, and the next call attempts the same reports once more. *)
Theorem failed_tweets_are_retried (germany : D) (st : U * W) :
  (forall w t m, fst (write_message w t m) = false) ->
  let run := send_daily_reports false (Some germany) st in
  fst (final run) = fst st
  /\ written (events run) = stale_texts (fst st) germany
  /\ written (events (send_daily_reports false (Some germany) (final run)))
     = stale_texts (fst st) germany.
Proof.
  intros Hw. cbv zeta. destruct st as [u w]. cbn [fst].
  destruct (failing_writer_run germany u w Hw) as (_ & Hu & Hwritten).
  split; [exact Hu |]. split; [exact Hwritten |].
  destruct (final (send_daily_reports false (Some germany) (u, w)))
    as [u' w'].
  cbn [fst] in Hu. subst u'.
  now destruct (failing_writer_run germany u w' Hw) as (_ & _ & ->).
Qed.

(** X20.  [send_daily_reports] never moves a last update back: for
    every user the day of the last update afterwards is the same or
    later. *)
Theorem daily_tweets_never_move_an_update_back
        (no_write : bool) (germany : D) (st : U * W) (uid : string) :
  keeps_updates U ->
  let run := send_daily_reports no_write (Some germany) st in
  last_update_date (fst st) uid <= last_update_date (fst (final run)) uid.
Proof.
  intros Hkeeps. cbv zeta. destruct st as [u w].
  destruct uids_differ as (E1 & E2 & E3 & E4 & E5 & E6).
  unfold final. unfold_tweets.
  destruct (last_update_date u INFECTIONS_UID <? date germany) eqn:Ei,
           (last_update_date u VACCINATIONS_UID <? vaccinations_date germany)
             eqn:Ev,
           (last_update_date u ICU_UID <? icu_date germany) eqn:Ec,
           no_write;
    repeat progress
           (cbv beta iota;
            rewrite ?Hkeeps, ?E1, ?E2, ?E3, ?E4, ?E5, ?E6, ?Ei, ?Ev, ?Ec;
            repeat match goal with
                   | |- context [write_message ?w0 ?t ?m] =>
                       destruct (write_message w0 t m) as [[] ?]
                   end);
    rewrite ?Z.ltb_lt in *;
    repeat match goal with
           | |- context [String.eqb ?a uid] =>
               destruct (String.eqb_spec a uid); subst
           end;
    lia.
Qed.
End DailyTweets.

(** ** The dispatcher and the daily tweets on small inputs *)

Section MoreExamples.
Import Py Py.Notations SignalInterface SingleCommandReports.
Local Open Scope string_scope.

Lemma send_message_attempts_witness :
  (0 <= 1)%Q
  /\ SignalInterface.attempts
       (events (SignalInterface.send_message
                  "hello" ["alice"; "bob"] true [] 1%Q 0%Z
                  [false; true; true; true]))
     = [("alice", "hello"); ("alice", "report");
        ("bob", "hello"); ("bob", "report")].
Proof.
  assert (0 <= 1)%Q as Hd by discriminate.
  split; [exact Hd |].
  exact (proj1 (proj2 (@send_message_attempts
                         (list bool) SignalInterface.scripted_backend
                         "hello" ["alice"; "bob"] true [] 1%Q 0%Z
                         [false; true; true; true] Hd))).
Defined.

Lemma daily_reports_sleep_once_per_report_witness :
  ((1 # 2) <= 3 # 2 <= 2)%Q
  /\ List.length
       (filter SignalInterface.is_sleep
               (events (SignalInterface.send_daily_reports
                          [("alice", "r1"); ("bob", "r2")] (3 # 2)%Q 0%Z
                          [false; true])))
     = 2%nat.
Proof.
  assert ((1 # 2) <= 3 # 2 <= 2)%Q as Hu by (split; discriminate).
  split; [exact Hu |].
  exact (proj2 (@daily_reports_sleep_once_per_report
                  (list bool) SignalInterface.scripted_backend
                  [("alice", "r1"); ("bob", "r2")] (3 # 2)%Q 0%Z
                  [false; true] Hu)).
Defined.

Lemma daily_reports_without_failure_keep_the_floor_witness :
  ((1 # 2) <= 3 # 2 <= 2)%Q
  /\ forallb (fun success : bool => success)
             (SignalInterface.outcomes
                0%Z ([] : list bool) [("alice", "r1"); ("bob", "r2")]) = true
  /\ SignalInterface.sleeps_within
       (1 # 2)%Q (3 # 2)%Q
       (events (SignalInterface.send_daily_reports
                  [("alice", "r1"); ("bob", "r2")] (3 # 2)%Q 0%Z
                  ([] : list bool))).
Proof.
  assert ((1 # 2) <= 3 # 2 <= 2)%Q as Hu by (split; discriminate).
  split; [exact Hu |]. split; [reflexivity |].
  exact (@daily_reports_without_failure_keep_the_floor
           (list bool) SignalInterface.scripted_backend
           [("alice", "r1"); ("bob", "r2")] (3 # 2)%Q 0%Z [] Hu eq_refl).
Defined.

Lemma failed_send_resets_the_delay_witness :
  (1 < 3 # 2 <= 2)%Q
  /\ outcome (SignalInterface.backoff_timer (3 # 2)%Q true "bob"
                                            ([] : list bool))
     = Ok 0%Q.
Proof.
  assert (1 < 3 # 2 <= 2)%Q as Hd by (split; [reflexivity | discriminate]).
  split; [exact Hd |].
  destruct (@failed_send_resets_the_delay (list bool) (3 # 2)%Q "bob" [])
    as (_ & _ & Hzero & _).
  exact (Hzero Hd).
Defined.

Lemma table_keeps_updates : SingleCommandReports.keeps_updates (string -> Z).
Proof. intros u uid uid' day. reflexivity. Qed.

Lemma daily_tweets_are_the_stale_reports_witness :
  SingleCommandReports.keeps_updates (string -> Z)
  /\ SingleCommandReports.written
       (events (SingleCommandReports.send_daily_reports
                  false (Some (5, 3, 0)%Z)
                  ((fun _ : string => 2%Z), [false; true])))
     = ["infections"; "vaccinations"].
Proof.
  split; [exact table_keeps_updates |].
  exact (proj1 (proj2 (@daily_tweets_are_the_stale_reports
                         (string -> Z) (list bool) (Z * Z * Z) _ _ _
                         false (5, 3, 0)%Z
                         ((fun _ : string => 2%Z), [false; true])
                         table_keeps_updates))).
Defined.

Lemma daily_tweets_are_sent_once_witness :
  SingleCommandReports.keeps_updates (string -> Z)
  /\ (true = true
      \/ forall (w : list bool) t m,
          fst (SingleCommandReports.write_message w t m) = true)
  /\ outcome
       (SingleCommandReports.send_daily_reports
          true (Some (5, 3, 0)%Z)
          (final (SingleCommandReports.send_daily_reports
                    true (Some (5, 3, 0)%Z)
                    ((fun _ : string => 2%Z), ([] : list bool)))))
     = Ok tt
  /\ events
       (SingleCommandReports.send_daily_reports
          true (Some (5, 3, 0)%Z)
          (final (SingleCommandReports.send_daily_reports
                    true (Some (5, 3, 0)%Z)
                    ((fun _ : string => 2%Z), ([] : list bool)))))
     = [].
Proof.
  split; [exact table_keeps_updates |].
  assert (true = true
          \/ forall (w : list bool) t m,
              fst (SingleCommandReports.write_message w t m) = true) as Hw
      by (left; reflexivity).
  split; [exact Hw |].
  pose proof (@daily_tweets_are_sent_once
                (string -> Z) (list bool) (Z * Z * Z) _ _ _
                true (5, 3, 0)%Z ((fun _ : string => 2%Z), [])
                table_keeps_updates Hw) as Honce.
  cbv zeta in Honce. rewrite Honce. split; reflexivity.
Defined.

Lemma failed_tweets_are_retried_witness :
  (forall (w : unit) t m,
      fst (SingleCommandReports.write_message w t m) = false)
  /\ SingleCommandReports.written
       (events (SingleCommandReports.send_daily_reports
                  false (Some (5, 3, 0)%Z)
                  (final (SingleCommandReports.send_daily_reports
                            false (Some (5, 3, 0)%Z)
                            ((fun _ : string => 2%Z), tt)))))
     = ["infections"; "vaccinations"].
Proof.
  assert (forall (w : unit) t m,
             fst (SingleCommandReports.write_message w t m) = false) as Hw
      by reflexivity.
  split; [exact Hw |].
  exact (proj2 (proj2 (@failed_tweets_are_retried
                         (string -> Z) unit (Z * Z * Z) _ _ _
                         (5, 3, 0)%Z ((fun _ : string => 2%Z), tt) Hw))).
Defined.

Lemma daily_tweets_never_move_an_update_back_witness :
  SingleCommandReports.keeps_updates (string -> Z)
  /\ (2 <= fst (final (SingleCommandReports.send_daily_reports
                         false (Some (5, 3, 0)%Z)
                         ((fun _ : string => 2%Z), [true])))
                "infections")%Z.
Proof.
  split; [exact table_keeps_updates |].
  exact (@daily_tweets_never_move_an_update_back
           (string -> Z) (list bool) (Z * Z * Z) _ _ _
           false (5, 3, 0)%Z ((fun _ : string => 2%Z), [true])
           "infections" table_keeps_updates).
Defined.
End MoreExamples.

(** * Incoming Signal messages *)

Section Handler.
Import Py Py.Notations SignalHandler.
Local Open Scope string_scope.

Context {B : Type} `{Bot B}.

Lemma find_lower_bound (sub s : string) : (-1 <= find sub s)%Z.
Proof.
  induction s as [| c s IH]; cbn [find].
  - destruct (String.prefix sub EmptyString); lia.
  - destruct (String.prefix sub (String c s)); [lia |].
    destruct (find sub s =? -1)%Z; lia.
Qed.

Lemma find_zero (sub s : string) :
  find sub s = 0%Z <-> String.prefix sub s = true.
Proof.
  destruct s as [| c s]; cbn [find].
  - destruct (String.prefix sub EmptyString); split; congruence || lia.
  - destruct (String.prefix sub (String c s)); [tauto |].
    pose proof (find_lower_bound sub s).
    destruct (Z.eqb_spec (find sub s) (-1)); split; congruence || lia.
Qed.

Lemma match_atoms_consumes (pattern : list atom) :
  forall s rest,
    match_atoms pattern s = Some rest ->
    exists m, s = m ++ rest /\ String.length m = List.length pattern.
Proof.
  induction pattern as [| a pattern IH]; intros s rest Hm.
  - exists EmptyString. cbn in *. split; congruence.
  - destruct s as [| c s]; [discriminate |]. cbn [match_atoms] in Hm.
    destruct (atom_matches a c); [| discriminate].
    destruct (IH s rest Hm) as (m & -> & Hlen).
    exists (String c m). cbn. auto.
Qed.

Lemma re_sub_drops (pattern : list atom) (m : string) :
  forall r,
    re_sub_from pattern (String.length m) true (m ++ r) =
    re_sub_from pattern 0 true r.
Proof. induction m as [| c m IH]; intros r; [reflexivity | apply IH]. Qed.

Lemma re_sub_tail (pattern : list atom) (r : string) :
  re_sub_from pattern 0 true r = re_sub_from pattern 0 false (rest_of_line r).
Proof.
  induction r as [| c r IH]; [reflexivity |].
  cbn [re_sub_from rest_of_line andb].
  destruct (Ascii.eqb c newline) eqn:Hc; cbn [negb]; [| exact IH].
  cbn [re_sub_from andb]. reflexivity.
Qed.

(** The substitution removes the leftmost match with its line and goes
    on after it; where nothing matches it keeps the character. *)
Lemma re_sub_match (pattern : list atom) (s rest : string) :
  pattern <> [] ->
  match_atoms pattern s = Some rest ->
  re_sub pattern s = re_sub pattern (rest_of_line rest).
Proof.
  intros Hne Hm. unfold re_sub.
  destruct (match_atoms_consumes pattern s Hm) as (m & -> & Hlen).
  destruct m as [| c m].
  { destruct pattern; [congruence | discriminate]. }
  cbn [append re_sub_from andb]. cbn [append] in Hm. rewrite Hm.
  cbn [String.length] in Hlen. rewrite <- Hlen. cbn [Nat.pred].
  now rewrite re_sub_drops, re_sub_tail.
Qed.

Lemma re_sub_no_match (pattern : list atom) (c : ascii) (s : string) :
  match_atoms pattern (String c s) = None ->
  re_sub pattern (String c s) = String c (re_sub pattern s).
Proof.
  intros Hm. unfold re_sub. cbn [re_sub_from andb]. now rewrite Hm.
Qed.

Lemma location_needs_newline (c : ascii) (s : string) :
  Ascii.eqb c newline = false ->
  match_atoms location_pattern (String c s) = None.
Proof. intros Hc. cbn. now rewrite Hc. Qed.

Lemma re_sub_without_newline (s : string) :
  no_newline s = true -> re_sub location_pattern s = s.
Proof.
  unfold no_newline.
  induction s as [| c s IH]; [reflexivity |].
  cbn [SingleCommandInterface.all_chars].
  rewrite andb_true_iff, negb_true_iff. intros [Hc Hs].
  rewrite re_sub_no_match by now apply location_needs_newline.
  now rewrite IH.
Qed.

Lemma re_sub_after_line (a s : string) :
  no_newline a = true ->
  re_sub location_pattern (a ++ s) = a ++ re_sub location_pattern s.
Proof.
  unfold no_newline.
  induction a as [| c a IH]; [reflexivity |].
  cbn [SingleCommandInterface.all_chars append].
  rewrite andb_true_iff, negb_true_iff. intros [Hc Ha].
  rewrite re_sub_no_match by now apply location_needs_newline.
  now rewrite IH.
Qed.

Lemma rest_of_line_without_newline (s : string) :
  no_newline s = true -> rest_of_line s = EmptyString.
Proof.
  unfold no_newline.
  induction s as [| c s IH]; [reflexivity |].
  cbn [SingleCommandInterface.all_chars rest_of_line].
  rewrite andb_true_iff, negb_true_iff. intros [-> Hs]. auto.
Qed.

(** A location line at the end of a one-line text is removed. *)
Lemma re_sub_location (address coordinates : string) :
  no_newline address = true ->
  no_newline coordinates = true ->
  re_sub location_pattern
         (address ++ String newline (maps_url ++ coordinates))
  = address.
Proof.
  intros Ha Hc. rewrite re_sub_after_line by exact Ha.
  erewrite re_sub_match; [| discriminate | reflexivity].
  rewrite rest_of_line_without_newline by exact Hc.
  cbn. clear. induction address; cbn; congruence.
Qed.

Lemma prefix_before_newline (u a r : string) :
  no_newline u = true ->
  String.prefix u (a ++ String newline r) = String.prefix u a.
Proof.
  unfold no_newline. revert a.
  induction u as [| c u IH]; intros a Hu.
  - destruct a; reflexivity.
  - cbn [SingleCommandInterface.all_chars] in Hu.
    apply andb_true_iff in Hu as [Hc Hu]. apply negb_true_iff in Hc.
    destruct a as [| c' a]; cbn [append String.prefix].
    + destruct (Ascii.ascii_dec c newline) as [-> | Hne].
      * now rewrite Ascii.eqb_refl in Hc.
      * reflexivity.
    + destruct (Ascii.ascii_dec c c'); [now apply IH | reflexivity].
Qed.

(** The trace of the handler on a text that is not empty. *)
Lemma message_handler_run (c : ascii) (text0 : string) (source : string)
      (b : B) :
  let text := String c text0 in
  let text' :=
    if negb (find maps_url text =? 0)%Z then re_sub location_pattern text
    else text in
  let b1 := if is_user_activated b source then b else enable_user b source in
  message_handler (Some text) source b =
  (Ok tt, snd (handle_input b1 text' source),
   TypingStarted
   :: (if is_user_activated b source then [] else [EnableUser source])
   ++ HandleInput text' source
   :: match fst (handle_input b1 text' source) with
      | Some reply =>
          match SignalInterface.image reply with
          | Some _ => [WriteGraphic 99]
          | None => []
          end
          ++ [Reply (adapt_text (SignalInterface.message reply))
                    (match SignalInterface.image reply with
                     | Some _ => [99%Z]
                     | None => []
                     end)]
      | None => []
      end
   ++ [TypingStopped])%list.
Proof.
  cbv zeta. unfold message_handler.
  cbv beta iota delta [bind emit ret get put bot_is_user_activated
                       bot_enable_user self_handle_input send_reply].
  destruct (is_user_activated b source); cbn [negb];
    match goal with
    | |- context [handle_input ?b1 ?t ?p] =>
        destruct (handle_input b1 t p) as [[reply |] b2]
    end;
    cbn [fst snd]; try reflexivity;
    destruct (SignalInterface.image reply); reflexivity.
Qed.

Lemma handled_app (tr1 tr2 : list event) :
  handled (tr1 ++ tr2) = (handled tr1 ++ handled tr2)%list.
Proof.
  induction tr1 as [| e tr1 IH]; [reflexivity |].
  destruct e; cbn; now rewrite ?IH.
Qed.

Lemma handled_run (c : ascii) (text0 : string) (source : string) (b : B) :
  handled (events (message_handler (Some (String c text0)) source b)) =
  [if negb (find maps_url (String c text0) =? 0)%Z
   then re_sub location_pattern (String c text0)
   else String c text0].
Proof.
  rewrite message_handler_run. unfold events. cbn [snd].
  cbn [handled]. rewrite handled_app. cbn [handled].
  rewrite handled_app.
  destruct (is_user_activated b source); cbn [handled app];
    match goal with
    | |- context [handle_input ?b1 ?t ?p] =>
        destruct (fst (handle_input b1 t p)) as [reply |]
    end; try reflexivity;
    destruct (SignalInterface.image reply); reflexivity.
Qed.

(** X22.  A location message, an address on one line followed by a line
    with the maps link and the coordinates, is handled as its address:
    the link line is removed before [handle_input] sees the text. *)
Theorem location_message_is_handled_as_its_address
        (address coordinates source : string) (b : B) :
  no_newline address = true ->
  no_newline coordinates = true ->
  String.prefix maps_url address = false ->
  handled
    (events (message_handler
               (Some (address ++ String newline (maps_url ++ coordinates)))
               source b))
  = [address].
Proof.
  intros Ha Hc Hprefix.
  assert ((find maps_url
                (address ++ String newline (maps_url ++ coordinates)) =? 0)%Z
          = false) as Hfind.
  { apply Z.eqb_neq. rewrite find_zero.
    rewrite prefix_before_newline by reflexivity. congruence. }
  pose proof (re_sub_location address coordinates Ha Hc) as Hsub.
  destruct (address ++ String newline (maps_url ++ coordinates))
    as [| c text0] eqn:Etext.
  { destruct address; discriminate. }
  rewrite handled_run, Hfind. cbn [negb]. now rewrite Hsub.
Qed.

(** X23.  A text that is not empty and has a single line is handed to
    [handle_input] as it is.  So is every text that starts with the maps
    link, whatever follows: [find] gives 0 there, which is false, and
    the substitution is skipped. *)
Theorem other_text_is_handled_unchanged (text source : string) (b : B) :
  text <> EmptyString ->
  no_newline text = true \/ String.prefix maps_url text = true ->
  handled (events (message_handler (Some text) source b)) = [text].
Proof.
  intros Hne Hcase. destruct text as [| c text0]; [congruence |].
  rewrite handled_run.
  destruct (find maps_url (String c text0) =? 0)%Z eqn:Hfind; [reflexivity |].
  cbn [negb]. destruct Hcase as [Hline | Hprefix].
  - now rewrite re_sub_without_newline.
  - apply find_zero in Hprefix. apply Z.eqb_neq in Hfind. congruence.
Qed.

(** X24.  On an empty or missing body the handler does nothing.  On
    any other body, as far as [handle_input] and the calls on the
    message return, it starts the typing indicator first and stops it
    last, calls [handle_input] once, replies at most once, and enables
    the sender exactly when the sender was not activated; when enabling
    a user activates that user, [handle_input] runs in a state in which
    the sender is activated. *)
Theorem handler_handles_one_input
        (body : option string) (source : string) (b : B) :
  let run := message_handler body source b in
  (body = None \/ body = Some EmptyString ->
   events run = [] /\ final run = b)
  /\ (forall c text0,
         body = Some (String c text0) ->
         hd_error (events run) = Some TypingStarted
         /\ last (events run) TypingStarted = TypingStopped
         /\ List.length (handled (events run)) = 1%nat
         /\ (List.length (filter is_reply (events run)) <= 1)%nat
         /\ (In (EnableUser source) (events run) <->
             is_user_activated b source = false)
         /\ (enabling_activates B ->
             exists b1 text',
               is_user_activated b1 source = true
               /\ handled (events run) = [text']
               /\ final run = snd (handle_input b1 text' source))).
Proof.
  cbv zeta. split.
  - intros [-> | ->]; split; reflexivity.
  - intros c text0 ->.
    pose proof (handled_run c text0 source b) as Hhandled.
    rewrite Hhandled.
    rewrite message_handler_run in *. cbv zeta.
    unfold events, final. cbn [fst snd].
    set (text' := if negb (find maps_url (String c text0) =? 0)%Z
                  then re_sub location_pattern (String c text0)
                  else String c text0) in *.
    split; [reflexivity |]. split; [| split; [reflexivity |]].
    { match goal with
      | |- last (?e :: (?a ++ ?h :: (?r ++ [?t]))%list) _ = _ =>
          replace (e :: (a ++ h :: (r ++ [t])))%list
            with ((e :: a ++ h :: r) ++ [t])%list
            by (cbn [app]; now rewrite <- app_assoc)
      end.
      apply last_last. }
    destruct (is_user_activated b source) eqn:Hact; cbn [app].
    + split; [| split].
      * destruct (fst (handle_input b text' source)) as [reply |];
          [destruct (SignalInterface.image reply) |]; cbn; lia.
      * split; [| discriminate]. intros Hin. exfalso.
        destruct Hin as [Hin | [Hin | Hin]]; try discriminate.
        rewrite in_app_iff in Hin. destruct Hin as [Hin | Hin].
        -- destruct (fst (handle_input b text' source)) as [reply |];
             [destruct (SignalInterface.image reply) |]; cbn in Hin;
             intuition discriminate.
        -- cbn in Hin. intuition discriminate.
      * intros _. exists b, text'. auto.
    + split; [| split].
      * destruct (fst (handle_input (enable_user b source) text' source))
          as [reply |];
          [destruct (SignalInterface.image reply) |]; cbn; lia.
      * split; [reflexivity |]. intros _. cbn. auto.
      * intros Henable. exists (enable_user b source), text'. auto.
Qed.
End Handler.

(** ** The handler on an echo bot *)

Section HandlerExamples.
Import Py Py.Notations SignalHandler.
Local Open Scope string_scope.

Lemma location_message_is_handled_as_its_address_witness :
  no_newline "Unter den Linden 1" = true
  /\ no_newline "52.5,13.4" = true
  /\ String.prefix maps_url "Unter den Linden 1" = false
  /\ handled
       (events (message_handler
                  (Some ("Unter den Linden 1"
                         ++ String newline (maps_url ++ "52.5,13.4")))
                  "+49" ([] : list string)))
     = ["Unter den Linden 1"].
Proof.
  assert (no_newline "Unter den Linden 1" = true) as Ha by reflexivity.
  assert (no_newline "52.5,13.4" = true) as Hc by reflexivity.
  assert (String.prefix maps_url "Unter den Linden 1" = false) as Hp
      by reflexivity.
  repeat (split; [assumption |]).
  exact (@location_message_is_handled_as_its_address
           (list string) echo_bot "Unter den Linden 1" "52.5,13.4" "+49" []
           Ha Hc Hp).
Defined.

Lemma other_text_is_handled_unchanged_witness :
  let text :=
    maps_url ++ "1,2" ++ String newline (maps_url ++ "3,4") in
  text <> EmptyString
  /\ (no_newline text = true \/ String.prefix maps_url text = true)
  /\ handled (events (message_handler (Some text) "+49" ([] : list string)))
     = [text].
Proof.
  cbv zeta.
  assert (maps_url ++ "1,2" ++ String newline (maps_url ++ "3,4")
          <> EmptyString) as Hne by discriminate.
  assert (no_newline (maps_url ++ "1,2" ++ String newline (maps_url ++ "3,4"))
          = true
          \/ String.prefix
               maps_url
               (maps_url ++ "1,2" ++ String newline (maps_url ++ "3,4"))
             = true) as Hcase by (right; reflexivity).
  repeat (split; [assumption |]).
  exact (@other_text_is_handled_unchanged
           (list string) echo_bot _ "+49" [] Hne Hcase).
Defined.

Lemma handler_handles_one_input_witness :
  enabling_activates (list string)
  /\ In (EnableUser "+49")
        (events (message_handler (Some "Berlin") "+49" ([] : list string)))
  /\ exists b1 text',
      is_user_activated b1 "+49" = true
      /\ handled (events (message_handler (Some "Berlin") "+49"
                                          ([] : list string))) = [text'].
Proof.
  assert (enabling_activates (list string)) as Henable.
  { intros b platform_id. cbn. now rewrite String.eqb_refl. }
  split; [exact Henable |].
  destruct (@handler_handles_one_input (list string) echo_bot
              (Some "Berlin") "+49" [])
    as (_ & Hbody).
  destruct (Hbody "B"%char "erlin" eq_refl)
    as (_ & _ & _ & _ & Hin & Hact).
  split; [apply Hin; reflexivity |].
  destruct (Hact Henable) as (b1 & text' & H1 & H2 & _).
  exists b1, text'. split; assumption.
Defined.
End HandlerExamples.

(** * The pause after every send *)

Section Pacing.
Import Py Py.Notations SignalInterface.
Local Open Scope Q_scope.

Context {S : Type} `{Backend S}.

Lemma pacing_app (tr1 tr2 : list event) :
  pacing (tr1 ++ tr2) = (pacing tr1 ++ pacing tr2)%list.
Proof.
  induction tr1 as [| e tr1 IH]; [reflexivity |].
  destruct e; cbn; now rewrite ?IH.
Qed.

Lemma send_then_sleep_add (n m : nat) :
  send_then_sleep (n + m) = (send_then_sleep n ++ send_then_sleep m)%list.
Proof. induction n as [| n IH]; [reflexivity |]. cbn. now rewrite IH. Qed.

Lemma daily_report_loop_pacing (total : nat) (g : Z)
      (reports : list (string * string)) :
  forall (d : Q) (n : nat) (s : S),
    0 <= d ->
    pacing (events (for_fold (daily_report_body total g) (d, n) reports s))
    = send_then_sleep (List.length reports).
Proof.
  induction reports as [| [u m] rest IH]; intros d n s Hd; [reflexivity |].
  cbn [for_fold].
  erewrite bind_ok by apply (daily_report_body_run total g n u m s Hd).
  unfold events at 1. cbn [snd].
  rewrite !pacing_app, IH by now apply new_backoff_nonneg.
  destruct (fst (send s u (adapt_text m) [g])); reflexivity.
Qed.

Lemma message_body_pacing (message : string) (append_report : bool)
      (d : Q) (user : string) (s : S) :
  0 <= d ->
  exists d' s' tr,
    message_body message append_report d user s = (Ok d', s', tr)
    /\ 0 <= d'
    /\ pacing tr = send_then_sleep (List.length (attempts tr)).
Proof.
  intros Hd. unfold message_body.
  cbv beta iota delta [bind emit ret bot_send_message].
  destruct (send s user (adapt_text message) []) as [success s1].
  cbv beta iota.
  rewrite (backoff_timer_run (negb success) user s1 Hd).
  pose proof (new_backoff_nonneg (negb success) Hd) as Hd1.
  set (d1 := new_backoff_value d (negb success)) in *.
  cbv beta iota.
  destruct append_report.
  - destruct (image (reportHandler EmptyString user));
      cbv beta iota delta [bind emit ret get_attachment_path];
      match goal with
      | |- context [send s1 user ?body ?atts] =>
          destruct (send s1 user body atts) as [success2 s2]
      end;
      rewrite (backoff_timer_run (negb success2) user s2 Hd1);
      eexists _, _, _; (split; [reflexivity |]);
      (split; [now apply new_backoff_nonneg |]);
      destruct success, success2; reflexivity.
  - eexists _, _, _. split; [reflexivity |]. split; [exact Hd1 |].
    destruct success; reflexivity.
Qed.

Lemma message_loop_pacing (message : string) (append_report : bool)
      (users : list string) :
  forall (d : Q) (s : S),
    0 <= d ->
    exists d' s' tr,
      for_fold (message_body message append_report) d users s
      = (Ok d', s', tr)
      /\ pacing tr = send_then_sleep (List.length (attempts tr)).
Proof.
  induction users as [| user rest IH]; intros d s Hd.
  - exists d, s, []. auto.
  - cbn [for_fold]. unfold bind at 1.
    destruct (message_body_pacing message append_report user s Hd)
      as (d1 & s1 & tr1 & -> & Hd1 & Hp1).
    destruct (IH d1 s1 Hd1) as (d2 & s2 & tr2 & -> & Hp2).
    eexists _, _, _. split; [reflexivity |].
    now rewrite pacing_app, attempts_app, length_app, send_then_sleep_add,
      Hp1, Hp2.
Qed.

(** X25.  In both kinds of batch every send is followed by one sleep
    before the next send, also the last one and whatever the outcome:
    the sends and sleeps of [send_daily_reports] and of [send_message]
    alternate, starting with a send and ending with a sleep. *)
Theorem every_send_is_followed_by_a_sleep
        (reports : list (string * string)) (message : string)
        (users : list string) (append_report : bool)
        (all_users : list string) (uniform : Q) (returncode : Z) (s : S) :
  0 <= uniform ->
  let daily := send_daily_reports reports uniform returncode s in
  let msg :=
    send_message message users append_report all_users uniform returncode s in
  pacing (events daily) = send_then_sleep (List.length reports)
  /\ pacing (events msg)
     = send_then_sleep (List.length (attempts (events msg))).
Proof.
  intros Hd. cbv zeta. split.
  - destruct reports as [| r rest] eqn:E; [reflexivity |].
    rewrite <- E.
    assert (reports <> []) as Hne by (rewrite E; discriminate).
    destruct (send_daily_reports_run returncode s Hd Hne)
      as (tr & -> & _ & ->).
    unfold events at 1. cbn [snd].
    rewrite !pacing_app, daily_report_loop_pacing by exact Hd.
    destruct (returncode =? 0)%Z; cbn; now rewrite app_nil_r.
  - unfold send_message.
    set (us := match users with [] => all_users | _ :: _ => users end).
    destruct (message_loop_pacing message append_report us s Hd)
      as (d' & s' & tr & Hrun & Hp).
    unfold bind. rewrite Hrun, restart_service_run.
    unfold events. cbn [snd].
    rewrite pacing_app, attempts_app, Hp.
    destruct (returncode =? 0)%Z; cbn; now rewrite !app_nil_r.
Qed.
End Pacing.

Section PacingExamples.
Import Py Py.Notations SignalInterface.
Local Open Scope string_scope.

Lemma every_send_is_followed_by_a_sleep_witness :
  (0 <= 1)%Q
  /\ pacing (events (send_message "hello" ["alice"; "bob"] true [] 1%Q 0%Z
                                  [false; true; true; true]))
     = [true; false; true; false; true; false; true; false].
Proof.
  assert (0 <= 1)%Q as Hd by discriminate.
  split; [exact Hd |].
  exact (proj2 (@every_send_is_followed_by_a_sleep
                  (list bool) scripted_backend [] "hello" ["alice"; "bob"]
                  true [] 1%Q 0%Z [false; true; true; true] Hd)).
Defined.
End PacingExamples.
